(** * MetricFlow: dbt manifest ingestion and query-parser suggestions

    The first part embeds the Python code of
    [metricflow/model/transformations/yet_another_dbt_to_metricflow.py] and
    [metricflow/model/parsing/dbt_dir_to_model.py].  Classes and functions that
    these two modules import from elsewhere are the fields of two classes,
    [Dbt.Externals] and [Dbt.Collaborators].

    The second part holds the query validator that
    [metricflow/test/query/test_query_parser_suggestions.py] exercises, as the
    specification describes it, and the models of the three test scenarios.

    The properties come last. *)

From Stdlib Require Import String Ascii List ZArith Lia Bool Arith.
From Stdlib Require Import Sorting.Sorted OrdersEx DecimalString.
Import ListNotations.
Local Open Scope list_scope.
Local Open Scope string_scope.

(** ** Python values found in a dbt [meta] mapping *)

(** The YAML-born values of a [meta] mapping.  A [dict] keeps its items in
    insertion order; keys are strings.  Floats are not represented. *)
#[local] Set Warnings "-register-all".
Inductive PyVal : Type :=
| VNone
| VBool (b : bool)
| VInt (z : Z)
| VStr (s : string)
| VList (l : list PyVal)
| VDict (d : list (string * PyVal)).

Definition dict := list (string * PyVal).

Inductive PyExn : Type :=
| KeyError (key : string)
| TypeError
| AttributeError
| OtherError (what : string).

Inductive result (A : Type) : Type :=
| Ok (a : A)
| Raise (e : PyExn).
Arguments Ok {A} a.
Arguments Raise {A} e.

Definition rbind {A B} (r : result A) (k : A -> result B) : result B :=
  match r with
  | Ok a => k a
  | Raise e => Raise e
  end.

(** [d.get(k)] on a real [dict]: [None] stands for Python's default. *)
Fixpoint dict_get (d : dict) (k : string) : option PyVal :=
  match d with
  | [] => None
  | (k', v) :: rest => if String.eqb k' k then Some v else dict_get rest k
  end.

(** [d.get(k)] followed by an [is None] test: absent keys and keys bound to
    [None] are not told apart. *)
Definition meta_get (d : dict) (k : string) : PyVal :=
  match dict_get d k with
  | Some v => v
  | None => VNone
  end.

Definition is_none (v : PyVal) : bool :=
  match v with
  | VNone => true
  | _ => false
  end.

(** [v.get(k, default)] for an arbitrary value [v]. *)
Definition py_get (v : PyVal) (k : string) (default : PyVal) : result PyVal :=
  match v with
  | VDict d =>
      Ok (match dict_get d k with
          | Some x => x
          | None => default
          end)
  | _ => Raise AttributeError
  end.

(** [v[k]] with a string key [k]. *)
Definition py_getitem (v : PyVal) (k : string) : result PyVal :=
  match v with
  | VDict d =>
      match dict_get d k with
      | Some x => Ok x
      | None => Raise (KeyError k)
      end
  | _ => Raise TypeError
  end.

Definition upper_ascii (c : ascii) : ascii :=
  let n := nat_of_ascii c in
  if ((97 <=? n) && (n <=? 122))%nat then ascii_of_nat (n - 32) else c.

(** [str.upper] on ASCII letters; other bytes are left as they are. *)
Fixpoint str_upper (s : string) : string :=
  match s with
  | EmptyString => EmptyString
  | String c rest => String (upper_ascii c) (str_upper rest)
  end.

(** [v.upper()] *)
Definition py_upper (v : PyVal) : result string :=
  match v with
  | VStr s => Ok (str_upper s)
  | _ => Raise AttributeError
  end.

Fixpoint chars (s : string) : list PyVal :=
  match s with
  | EmptyString => []
  | String c rest => VStr (String c EmptyString) :: chars rest
  end.

(** The elements a [for] loop over [v] visits. *)
Definition py_iter (v : PyVal) : result (list PyVal) :=
  match v with
  | VList l => Ok l
  | VDict d => Ok (map (fun kv => VStr (fst kv)) d)
  | VStr s => Ok (chars s)
  | _ => Raise TypeError
  end.

(** [v == s] for a string literal [s]. *)
Definition py_eq_str (v : PyVal) (s : string) : bool :=
  match v with
  | VStr s' => String.eqb s' s
  | _ => false
  end.

(** [a or b] on two strings. *)
Definition str_or (a b : string) : string :=
  match a with
  | EmptyString => b
  | _ => a
  end.

Definition Z_to_string (z : Z) : string :=
  NilZero.string_of_int (Z.to_int z).

(** ** Objects of the dbt manifest and of the MetricFlow model *)

(** A dbt [ColumnInfo]: only the attributes the transformer reads. *)
Record DbtColumn : Type := {
  col_name : string;
  col_description : string;
  col_meta : dict
}.

(** A node of the manifest; [node_columns] lists [columns.values()] with
    their keys, in insertion order. *)
Record DbtModel : Type := {
  node_name : string;
  node_description : string;
  node_meta : dict;
  node_columns : list (string * DbtColumn)
}.

(** [manifest.nodes.items()], in insertion order. *)
Record DbtManifest : Type := {
  nodes : list (string * DbtModel)
}.

Inductive ValidationIssue : Type :=
| ValidationError (message : string).

Module Dbt.

(** Enumerations, classes and functions that the two modules import from the
    rest of MetricFlow, from dbt and from the Python library. *)
Class Externals : Type := {
  IdentifierType : Type;
  DimensionType : Type;
  DimensionTypeParams : Type;
  AggregationType : Type;
  Metric : Type;
  ModelValidationResults : Type;
  DbtConfig : Type;
  IdentifierType_for_name : string -> result IdentifierType;
  DimensionType_for_name : string -> result DimensionType;
  DimensionTypeParams_parse_obj : PyVal -> result DimensionTypeParams;
  AggregationType_for_name : PyVal -> result AggregationType;
  from_issues_sequence : list ValidationIssue -> ModelValidationResults;
  (** Python's [repr] of a list or a dict, as an f-string renders it. *)
  py_repr : PyVal -> string;
  (** [str(Path(directory).joinpath(name))] *)
  joinpath : string -> string -> string
}.

Section Transformer.
Context {E : Externals}.

(** What [f"{v}"] puts into the string. *)
Definition py_str (v : PyVal) : string :=
  match v with
  | VNone => "None"
  | VBool true => "True"
  | VBool false => "False"
  | VInt z => Z_to_string z
  | VStr s => s
  | VList _ | VDict _ => py_repr v
  end.

(** The model objects hold their arguments as the transformer passes them;
    the checks their classes run on construction live outside these modules.
    [agg] is an upper-cased string for measures declared on the model and
    an [AggregationType] for measures declared on a column. *)
Inductive MeasureAgg : Type :=
| AggName (s : string)
| AggKind (a : AggregationType).

Record Measure : Type := {
  measure_name : PyVal;
  measure_description : PyVal;
  measure_agg : MeasureAgg;
  measure_expr : PyVal
}.

Record Identifier : Type := {
  identifier_name : PyVal;
  identifier_description : string;
  identifier_expr : PyVal;
  identifier_type : IdentifierType
}.

Record Dimension : Type := {
  dimension_name : PyVal;
  dimension_description : PyVal;
  dimension_expr : PyVal;
  dimension_type : DimensionType;
  dimension_type_params : option DimensionTypeParams
}.

Record PartialDataSource : Type := {
  sql_table : PyVal;
  issues : list ValidationIssue;
  measures : list Measure;
  identifiers : list Identifier;
  dimensions : list Dimension
}.

Record DataSource : Type := {
  ds_name : string;
  ds_sql_table : PyVal;
  ds_description : string;
  ds_identifiers : list Identifier;
  ds_measures : list Measure;
  ds_dimensions : list Dimension
}.

Record UserConfiguredModel : Type := {
  data_sources : list DataSource;
  metrics : list Metric
}.

Record ModelBuildResult : Type := {
  model : UserConfiguredModel;
  build_issues : ModelValidationResults
}.

(** *** The methods mutate a [PartialDataSource] and may raise *)

Definition M (A : Type) : Type :=
  PartialDataSource -> result (A * PartialDataSource).

Definition ret {A} (a : A) : M A := fun ds => Ok (a, ds).

Definition bind {A B} (m : M A) (k : A -> M B) : M B :=
  fun ds =>
    match m ds with
    | Ok (a, ds') => k a ds'
    | Raise e => Raise e
    end.

Definition lift {A} (r : result A) : M A :=
  fun ds =>
    match r with
    | Ok a => Ok (a, ds)
    | Raise e => Raise e
    end.

Notation "x <- m ;; k" := (bind m (fun x => k))
  (at level 61, m at next level, right associativity).
Notation "m ;;; k" := (bind m (fun _ => k))
  (at level 61, right associativity).

(** [partial_ds.issues.append(ValidationError(message=msg))] *)
Definition append_issue (msg : string) : M unit :=
  fun ds =>
    Ok (tt, {| sql_table := sql_table ds;
               issues := (issues ds ++ [ValidationError msg])%list;
               measures := measures ds;
               identifiers := identifiers ds;
               dimensions := dimensions ds |}).

Definition append_measure (m : Measure) : M unit :=
  fun ds =>
    Ok (tt, {| sql_table := sql_table ds;
               issues := issues ds;
               measures := (measures ds ++ [m])%list;
               identifiers := identifiers ds;
               dimensions := dimensions ds |}).

Definition append_identifier (i : Identifier) : M unit :=
  fun ds =>
    Ok (tt, {| sql_table := sql_table ds;
               issues := issues ds;
               measures := measures ds;
               identifiers := (identifiers ds ++ [i])%list;
               dimensions := dimensions ds |}).

Definition append_dimension (d : Dimension) : M unit :=
  fun ds =>
    Ok (tt, {| sql_table := sql_table ds;
               issues := issues ds;
               measures := measures ds;
               identifiers := identifiers ds;
               dimensions := (dimensions ds ++ [d])%list |}).

Definition set_sql_table (v : PyVal) : M unit :=
  fun ds =>
    Ok (tt, {| sql_table := v;
               issues := issues ds;
               measures := measures ds;
               identifiers := identifiers ds;
               dimensions := dimensions ds |}).

Definition get_sql_table : M PyVal := fun ds => Ok (sql_table ds, ds).

(** The [Measure(...)] call of the loop in [__fill_dbt_model_meta]; keyword
    arguments are evaluated left to right. *)
Definition measure_of_entry (measure : PyVal) : result Measure :=
  rbind (py_getitem measure "name") (fun name =>
  rbind (py_getitem measure "name") (fun name' =>
  rbind (py_get measure "description" name') (fun description =>
  rbind (py_getitem measure "agg") (fun agg =>
  rbind (py_upper agg) (fun agg_upper =>
  rbind (py_getitem measure "name") (fun name'' =>
  rbind (py_get measure "expr" name'') (fun expr =>
  Ok {| measure_name := name;
        measure_description := description;
        measure_agg := AggName agg_upper;
        measure_expr := expr |}))))))).

Fixpoint fill_measures (entries : list PyVal) : M unit :=
  match entries with
  | [] => ret tt
  | measure :: rest =>
      m <- lift (measure_of_entry measure) ;;
      append_measure m ;;;
      fill_measures rest
  end.

(** [__fill_dbt_model_meta] *)
Definition __fill_dbt_model_meta (dbt_model : DbtModel) : M unit :=
  let mf := meta_get (node_meta dbt_model) "mf" in
  if is_none mf then ret tt
  else
    old <- get_sql_table ;;
    tbl <- lift (py_get mf "sql_table" old) ;;
    set_sql_table tbl ;;;
    measures <- lift (py_get mf "measures" VNone) ;;
    if is_none measures then
      append_issue ("model.meta.mf.measures not found in model: " ++ node_name dbt_model)
    else
      entries <- lift (py_iter measures) ;;
      fill_measures entries.

(** [__fill_col] *)
Definition __fill_col (col : DbtColumn) : M unit :=
  let mf := meta_get (col_meta col) "mf" in
  if is_none mf then ret tt
  else
    mf_type <- lift (py_get mf "mf_type" VNone) ;;
    mf_type_again <- lift (py_get mf "mf_type" VNone) ;;
    (if is_none mf_type_again
     then append_issue ("meta.mf.mf_type not found for col: " ++ col_name col)
     else ret tt) ;;;
    name <- lift (py_get mf "name" (VStr (col_name col))) ;;
    let description := str_or (col_description col) (col_name col) in
    expr <- lift (py_get mf "expr" (VStr (col_name col))) ;;
    type_name <- lift (py_get mf "type" VNone) ;;
    if py_eq_str mf_type "identifier" then
      if is_none type_name then
        append_issue ("meta.mf.type not found for col: " ++ col_name col)
      else
        upper <- lift (py_upper type_name) ;;
        ty <- lift (IdentifierType_for_name upper) ;;
        append_identifier {| identifier_name := name;
                             identifier_description := description;
                             identifier_expr := expr;
                             identifier_type := ty |}
    else if py_eq_str mf_type "dimension" then
      if is_none type_name then
        append_issue ("meta.mf.type not found for col: " ++ col_name col)
      else
        type_params_dict <- lift (py_get mf "type_params" VNone) ;;
        type_params <-
          (if is_none type_params_dict then ret None
           else
             tp <- lift (DimensionTypeParams_parse_obj type_params_dict) ;;
             ret (Some tp)) ;;
        upper <- lift (py_upper type_name) ;;
        ty <- lift (DimensionType_for_name upper) ;;
        append_dimension {| dimension_name := name;
                            dimension_description := name;
                            dimension_expr := expr;
                            dimension_type := ty;
                            dimension_type_params := type_params |}
    else if py_eq_str mf_type "measure" then
      agg <- lift (py_get mf "agg" VNone) ;;
      if is_none agg then
        append_issue ("meta.mf.agg not found for col: " ++ col_name col)
      else
        kind <- lift (AggregationType_for_name agg) ;;
        append_measure {| measure_name := name;
                          measure_description := VStr description;
                          measure_expr := expr;
                          measure_agg := AggKind kind |}
    else
      append_issue ("invalid meta.mf.mf_type for col: " ++ col_name col
                    ++ ", value: " ++ py_str mf_type).

Fixpoint fill_cols (cols : list (string * DbtColumn)) : M unit :=
  match cols with
  | [] => ret tt
  | (_, col) :: rest => __fill_col col ;;; fill_cols rest
  end.

(** [__to_data_source] *)
Definition __to_data_source (dbt_model : DbtModel)
  : result (DataSource * list ValidationIssue) :=
  let partial_ds :=
    {| sql_table := VStr ("db.schema." ++ node_name dbt_model);
       issues := [];
       identifiers := [];
       measures := [];
       dimensions := [] |} in
  match (__fill_dbt_model_meta dbt_model ;;; fill_cols (node_columns dbt_model)) partial_ds with
  | Raise e => Raise e
  | Ok (_, ds) =>
      Ok ({| ds_name := node_name dbt_model;
             ds_sql_table := sql_table ds;
             ds_description := str_or (node_description dbt_model) (node_name dbt_model);
             ds_identifiers := identifiers ds;
             ds_measures := measures ds;
             ds_dimensions := dimensions ds |},
          issues ds)
  end.

(** [__dbt_models]: the nodes whose key starts with ["model."], in order. *)
Definition __dbt_models (manifest : DbtManifest) : list DbtModel :=
  map snd (filter (fun kv => String.prefix "model." (fst kv)) (nodes manifest)).

(** The loop of [build_user_configured_model] over the remaining models,
    with its two accumulators. *)
Fixpoint build_loop (models : list DbtModel)
    (acc_issues : list ValidationIssue) (acc_sources : list DataSource)
  : result (list ValidationIssue * list DataSource) :=
  match models with
  | [] => Ok (acc_issues, acc_sources)
  | m :: rest =>
      if is_none (meta_get (node_meta m) "mf") then
        build_loop rest acc_issues acc_sources
      else
        match __to_data_source m with
        | Raise e => Raise e
        | Ok (data_source, model_issues) =>
            build_loop rest (acc_issues ++ model_issues)%list (acc_sources ++ [data_source])%list
        end
  end.

Definition build_user_configured_model (manifest : DbtManifest)
  : result ModelBuildResult :=
  match build_loop (__dbt_models manifest) [] [] with
  | Raise e => Raise e
  | Ok (all_issues, sources) =>
      Ok {| model := {| data_sources := sources; metrics := [] |};
            build_issues := from_issues_sequence all_issues |}
  end.

(** *** [dbt_dir_to_model.py] *)

Record DbtProfileArgs : Type := {
  profile : option string;
  target : option string
}.

(** Functions of dbt and of MetricFlow that [dbt_dir_to_model.py] calls. *)
Class Collaborators : Type := {
  get_dbt_config : string -> DbtProfileArgs -> result DbtConfig;
  get_full_manifest : DbtConfig -> result DbtManifest;
  parse_directory_of_yaml_files_to_model : string -> result ModelBuildResult;
  ModelTransformer_transform : UserConfiguredModel -> result UserConfiguredModel
}.

Context {C : Collaborators}.

(** [get_dbt_project_manifest]; [tracking.disable_tracking()] only switches
    a flag inside dbt. *)
Definition get_dbt_project_manifest
    (directory : string) (profile target : option string) : result DbtManifest :=
  let profile_args := {| profile := profile; target := target |} in
  rbind (get_dbt_config directory profile_args) (fun dbt_config =>
  get_full_manifest dbt_config).

(** [dbt_build_result.model.metrics = mf_build_result.model.metrics] *)
Definition set_metrics (m : UserConfiguredModel) (ms : list Metric)
  : UserConfiguredModel :=
  {| data_sources := data_sources m; metrics := ms |}.

Definition parse_dbt_project_to_model
    (directory : string) (profile target : option string) : result ModelBuildResult :=
  rbind (get_dbt_project_manifest directory profile target) (fun manifest =>
  rbind (build_user_configured_model manifest) (fun dbt_build_result =>
  let mf_metrics_dir := joinpath directory "metrics" in
  rbind (parse_directory_of_yaml_files_to_model mf_metrics_dir) (fun mf_build_result =>
  let dbt_model := set_metrics (model dbt_build_result) (metrics (model mf_build_result)) in
  rbind (ModelTransformer_transform dbt_model) (fun transformed_model =>
  Ok {| model := transformed_model;
        build_issues := build_issues dbt_build_result |})))).

End Transformer.

End Dbt.

(** ** Stand-ins for the imported helpers, to run the transformer *)

Module DbtSample.
Import Dbt.

Definition known_kind (known : list string) (name : string) : result string :=
  if existsb (String.eqb name) known then Ok name
  else Raise (OtherError name).

Definition agg_for_name (v : PyVal) : result string :=
  match v with
  | VStr s => known_kind ["sum"; "min"; "max"; "count"; "average"] s
  | _ => Raise AttributeError
  end.

#[export] Instance externals : Externals := {|
  IdentifierType := string;
  DimensionType := string;
  DimensionTypeParams := PyVal;
  AggregationType := string;
  Metric := string;
  ModelValidationResults := list ValidationIssue;
  DbtConfig := string;
  IdentifierType_for_name := known_kind ["PRIMARY"; "FOREIGN"; "UNIQUE"];
  DimensionType_for_name := known_kind ["CATEGORICAL"; "TIME"];
  DimensionTypeParams_parse_obj := fun v => Ok v;
  AggregationType_for_name := agg_for_name;
  from_issues_sequence := fun l => l;
  py_repr := fun _ => "[...]";
  joinpath := fun directory name => directory ++ "/" ++ name
|}.

Definition empty_partial : PartialDataSource := {|
  sql_table := VStr "db.schema.orders";
  issues := [];
  measures := [];
  identifiers := [];
  dimensions := []
|}.

(** A column [amount] published as the measure [revenue], without [expr]. *)
Definition amount_col : DbtColumn := {|
  col_name := "amount";
  col_description := "";
  col_meta :=
    [("mf", VDict [("mf_type", VStr "measure");
                   ("name", VStr "revenue");
                   ("agg", VStr "sum")])]
|}.

(** A column whose [meta.mf] forgets [mf_type]. *)
Definition untyped_col : DbtColumn := {|
  col_name := "status";
  col_description := "order status";
  col_meta := [("mf", VDict [("type", VStr "categorical")])]
|}.

Definition orders_model : DbtModel := {|
  node_name := "orders";
  node_description := "";
  node_meta :=
    [("mf", VDict [("measures",
                    VList [VDict [("name", VStr "order_count");
                                  ("agg", VStr "count")]])])];
  node_columns := [("amount", amount_col); ("status", untyped_col)]
|}.

(** A model that carries no [mf] entry. *)
Definition staging_model : DbtModel := {|
  node_name := "stg_orders";
  node_description := "staging";
  node_meta := [("owner", VStr "data")];
  node_columns := [("status", untyped_col)]
|}.

Definition orders_manifest : DbtManifest := {|
  nodes := [("model.shop.orders", orders_model)]
|}.

(** What the transformer builds from [orders_manifest]. *)
Definition orders_build : ModelBuildResult :=
  Eval vm_compute in
    match build_user_configured_model orders_manifest with
    | Ok r => r
    | Raise _ => {| model := {| data_sources := []; metrics := [] |};
                    build_issues := [] |}
    end.

Definition metrics_build : ModelBuildResult := {|
  model := {| data_sources := []; metrics := ["revenue_total"] |};
  build_issues := [ValidationError "bad metric file"]
|}.

#[export] Instance collaborators : Collaborators := {|
  get_dbt_config := fun directory _ => Ok directory;
  get_full_manifest := fun _ => Ok orders_manifest;
  parse_directory_of_yaml_files_to_model := fun _ => Ok metrics_build;
  ModelTransformer_transform := fun m => Ok m
|}.

End DbtSample.

(** ** What a step adds to a partial data source *)

Module DbtAdditions.
Import Dbt.

Section Additions.
Context {E : Externals}.

(** A partial data source that holds nothing yet. *)
Definition nothing : PartialDataSource := {|
  sql_table := VNone;
  issues := [];
  measures := [];
  identifiers := [];
  dimensions := []
|}.

(** [extend ds added]: [ds] with the issues and elements of [added] appended
    to its own; the table of [ds] is kept. *)
Definition extend (ds added : PartialDataSource) : PartialDataSource := {|
  sql_table := sql_table ds;
  issues := (issues ds ++ issues added)%list;
  measures := (measures ds ++ measures added)%list;
  identifiers := (identifiers ds ++ identifiers added)%list;
  dimensions := (dimensions ds ++ dimensions added)%list
|}.

(** A method that only appends: on any partial data source it adds what it
    adds to an empty one, and it raises exactly when it raises there. *)
Definition appends_only {A} (m : M A) : Prop :=
  forall ds,
    m ds = match m nothing with
           | Ok (a, added) => Ok (a, extend ds added)
           | Raise e => Raise e
           end.

(** The nodes of a manifest that [build_user_configured_model] turns into
    data sources: models that carry an [mf] entry. *)
Definition is_mf_model (kv : string * DbtModel) : bool :=
  String.prefix "model." (fst kv) && negb (is_none (meta_get (node_meta (snd kv)) "mf")).

End Additions.

(** *** More columns and models to run the transformer on *)

Import DbtSample.

Definition column (name description : string) (mf : dict) : DbtColumn :=
  {| col_name := name; col_description := description; col_meta := [("mf", VDict mf)] |}.

(** An identifier column whose type is written in mixed case. *)
Definition order_id_col : DbtColumn :=
  column "order_id" "key of the order"
         [("mf_type", VStr "identifier"); ("type", VStr "Primary")].

Definition order_id_upper_col : DbtColumn :=
  column "order_id" "key of the order"
         [("mf_type", VStr "identifier"); ("type", VStr "PRIMARY")].

(** A dimension column with a description of its own. *)
Definition country_col : DbtColumn :=
  column "country" "country of the buyer"
         [("mf_type", VStr "dimension"); ("type", VStr "categorical")].

(** Columns that lack what their kind needs. *)
Definition untyped_identifier_col : DbtColumn :=
  column "buyer_id" "" [("mf_type", VStr "identifier")].

Definition unaggregated_col : DbtColumn :=
  column "price" "" [("mf_type", VStr "measure")].

Definition misspelt_col : DbtColumn :=
  column "price" "" [("mf_type", VStr "mesure"); ("agg", VStr "sum")].

(** A column whose [mf] entry is a string, not a mapping. *)
Definition scalar_mf_col : DbtColumn :=
  {| col_name := "price"; col_description := ""; col_meta := [("mf", VStr "measure")] |}.

(** A model whose [mf] entry gives a table and no measures. *)
Definition customers_model : DbtModel := {|
  node_name := "customers";
  node_description := "one row per customer";
  node_meta := [("mf", VDict [("sql_table", VStr "shop.customers")])];
  node_columns := [("country", country_col); ("order_id", order_id_col)]
|}.

(** A model with a measure entry that has no name, after a good one. *)
Definition broken_model : DbtModel := {|
  node_name := "payments";
  node_description := "";
  node_meta :=
    [("mf", VDict [("measures",
                    VList [VDict [("name", VStr "payments"); ("agg", VStr "count")];
                           VDict [("agg", VStr "sum")]])])];
  node_columns := []
|}.

(** A model whose [mf] entry is not a mapping. *)
Definition scalar_mf_model : DbtModel := {|
  node_name := "refunds";
  node_description := "";
  node_meta := [("mf", VBool true)];
  node_columns := []
|}.

Definition shop_manifest : DbtManifest := {|
  nodes := [("model.shop.orders", orders_model);
            ("test.shop.not_null_orders", customers_model);
            ("model.shop.stg_orders", staging_model);
            ("model.shop.customers", customers_model)]
|}.

(** What the transformer gives on these inputs. *)
Definition ran {A} (r : result (unit * A)) (otherwise : A) : A :=
  match r with
  | Ok (_, a) => a
  | Raise _ => otherwise
  end.

Definition built {A} (r : result A) (otherwise : A) : A :=
  match r with
  | Ok a => a
  | Raise _ => otherwise
  end.

Definition no_source : DataSource * list ValidationIssue :=
  ({| ds_name := ""; ds_sql_table := VNone; ds_description := "";
      ds_identifiers := []; ds_measures := []; ds_dimensions := [] |}, []).

Definition no_build : ModelBuildResult :=
  {| model := {| data_sources := []; metrics := [] |}; build_issues := [] |}.

Definition after_amount : PartialDataSource :=
  Eval vm_compute in ran (__fill_col amount_col empty_partial) empty_partial.

Definition after_orders_meta : PartialDataSource :=
  Eval vm_compute in ran (__fill_dbt_model_meta orders_model empty_partial) empty_partial.

Definition orders_source : DataSource * list ValidationIssue :=
  Eval vm_compute in built (__to_data_source orders_model) no_source.

Definition customers_source : DataSource * list ValidationIssue :=
  Eval vm_compute in built (__to_data_source customers_model) no_source.

Definition customers_build : ModelBuildResult :=
  Eval vm_compute in
    built (build_user_configured_model
             {| nodes := [("model.shop.customers", customers_model)] |}) no_build.

Definition shop_build : ModelBuildResult :=
  Eval vm_compute in built (build_user_configured_model shop_manifest) no_build.

(** Collaborators whose [metrics] directory does not parse. *)
Definition collaborators_without_metrics : Collaborators := {|
  get_dbt_config := fun directory _ => Ok directory;
  get_full_manifest := fun _ => Ok orders_manifest;
  parse_directory_of_yaml_files_to_model := fun dir => Raise (OtherError dir);
  ModelTransformer_transform := fun m => Ok m
|}.

End DbtAdditions.

(** * The query validator and its suggestions *)

Module Query.

(** The query parser itself ([parse_and_validate_query] and what it calls)
    is not among the sources at hand; its definitions below follow sections
    3, 4 and 7 of the specification. *)

(** ** Semantic model *)

Inductive AggregationKind : Type :=
| Sum | Count | CountDistinct | Min | Max | Average | SumBoolean.

Inductive TimeGranularity : Type :=
| Day | Week | Month | Quarter | Year.

Inductive DimensionKind : Type :=
| Categorical
| Time (is_primary : bool) (granularity : TimeGranularity).

Inductive Role : Type :=
| Primary | Foreign | Unique.

(** Modelled from the spec: the Measure of section 3; [create_metric] is the
    flag that asks for a one-measure metric of the same name. *)
Record Measure : Type := {
  measure_name : string;
  measure_agg : AggregationKind;
  measure_expr : string;
  create_metric : bool
}.

(** Modelled from the spec: the Dimension of section 3. *)
Record Dimension : Type := {
  dimension_name : string;
  dimension_kind : DimensionKind
}.

(** Modelled from the spec: the Identifier of section 3. *)
Record Identifier : Type := {
  identifier_name : string;
  identifier_role : Role;
  identifier_expr : string
}.

(** Modelled from the spec: the DataSource of section 3. *)
Record DataSource : Type := {
  ds_name : string;
  ds_description : string;
  ds_source : string;
  ds_measures : list Measure;
  ds_dimensions : list Dimension;
  ds_identifiers : list Identifier
}.

(** Modelled from the spec: the Metric of section 3, a name and the measures
    it combines. *)
Record Metric : Type := {
  metric_name : string;
  metric_measures : list string
}.

(** Modelled from the spec: the finished Semantic Model handed to the
    validator. *)
Record SemanticModel : Type := {
  data_sources : list DataSource;
  metrics : list Metric
}.

(** ** Model index (section 4.1) *)

Definition mem (x : string) (l : list string) : bool :=
  existsb (String.eqb x) l.

(** A list as a set: later repetitions of a name are dropped. *)
Fixpoint dedup (l : list string) : list string :=
  match l with
  | [] => []
  | x :: rest => x :: filter (fun y => negb (String.eqb y x)) (dedup rest)
  end.

(** Modelled from the spec: [metric_named] of the Model Index. *)
Definition metric_named (m : SemanticModel) (name : string) : option Metric :=
  find (fun mt => String.eqb (metric_name mt) name) (metrics m).

Definition dimension_names (ds : DataSource) : list string :=
  map dimension_name (ds_dimensions ds).

Definition identifier_names (ds : DataSource) : list string :=
  map identifier_name (ds_identifiers ds).

Definition metric_names (m : SemanticModel) : list string :=
  map metric_name (metrics m).

(** The names of the measures flagged as metric-generating. *)
Definition metric_measure_names (m : SemanticModel) : list string :=
  flat_map (fun ds => map measure_name (filter create_metric (ds_measures ds)))
           (data_sources m).

(** Modelled from the spec: the vocabulary for an unknown metric, all metric
    names plus all measure names flagged as metric-generating (4.3, step 1). *)
Definition metric_vocabulary (m : SemanticModel) : list string :=
  dedup (metric_names m ++ metric_measure_names m)%list.

(** Modelled from the spec: the vocabulary for an unknown element, the full
    set of dimension and identifier names in the model (4.3, step 3). *)
Definition element_vocabulary (m : SemanticModel) : list string :=
  dedup (flat_map (fun ds => dimension_names ds ++ identifier_names ds)%list
                  (data_sources m)).

(** Modelled from the spec: the local DataSources, those hosting a measure
    that backs one of the resolved metrics (4.3, step 2). *)
Definition local_data_sources (m : SemanticModel) (resolved : list Metric)
  : list DataSource :=
  filter (fun ds =>
            existsb (fun msr =>
                       existsb (fun mt => mem (measure_name msr) (metric_measures mt))
                               resolved)
                    (ds_measures ds))
         (data_sources m).

(** ** Suggestion engine (section 4.4) *)

(** Modelled from the spec: the similarity measure and its threshold of
    section 4.4.  The specification names normalised Levenshtein and
    ratio-based matching as examples and fixes neither, so both are left
    open; scores are on an integer scale. *)
Class Matcher : Type := {
  similarity : string -> string -> Z;
  threshold : Z
}.

(** Modelled from the spec: the observed cap on the number of suggestions. *)
Definition max_suggestions : nat := 6.


Section Engine.
Context {MT : Matcher}.

(** Modelled from the spec: the ranking of two candidates for [name] in
    section 4.4, by descending similarity, then by shorter length.  The
    specification names lexicographic order as a third key; the list that
    [test_nonexistent_metric] observes has ['instant_bookings'] before
    ['booking_payments'], two names of one length, so candidates that tie on
    both keys are left in the order of the vocabulary instead. *)
Definition ranks_before (name a b : string) : bool :=
  let sa := similarity name a in
  let sb := similarity name b in
  (sb <? sa)%Z
  || ((sa =? sb)%Z && (String.length a <=? String.length b)%nat).

(** The same order as a proposition. *)
Definition ranked (name a b : string) : Prop :=
  (similarity name b < similarity name a)%Z \/
  (similarity name a = similarity name b /\
   (String.length a <= String.length b)%nat).


Fixpoint insert_ranked (name c : string) (sorted : list string) : list string :=
  match sorted with
  | [] => [c]
  | x :: rest =>
      if ranks_before name c x then c :: x :: rest
      else x :: insert_ranked name c rest
  end.

Fixpoint sort_ranked (name : string) (l : list string) : list string :=
  match l with
  | [] => []
  | c :: rest => insert_ranked name c (sort_ranked name rest)
  end.

Definition above_threshold (name c : string) : bool :=
  (threshold <? similarity name c)%Z.

(** Modelled from the spec: the Suggestion Engine of section 4.4: keep the
    candidates above the threshold, sort them, cap the length. *)
Definition suggest (name : string) (vocabulary : list string) : list string :=
  firstn max_suggestions
         (sort_ranked name (filter (above_threshold name) vocabulary)).


End Engine.

(** ** Join-path resolution (section 4.2) *)

(** Modelled from the spec: what the Join-Path Resolver returns, a join
    specification (hops and target DataSource) or a typed failure. *)
Inductive JoinResult : Type :=
| Resolved (hops : list string) (target : string)
| NotFound
| Ambiguous
| RequiresFanout.

(** Modelled from the spec: the search over the identifier graph (4.2,
    steps 2 to 5) and the dimension names it reaches on an unambiguous path
    (4.3, step 3).  Both are left open. *)
Class JoinSearch : Type := {
  join_search : SemanticModel -> list DataSource -> string -> JoinResult;
  reachable_names : SemanticModel -> list DataSource -> list string
}.

Definition is_qualified (name : string) : bool :=
  match String.index 0 "__" name with
  | Some _ => true
  | None => false
  end.

(** [data_source__dimension] split at its first separator. *)
Definition split_qualified (name : string) : option (string * string) :=
  match String.index 0 "__" name with
  | Some i =>
      Some (String.substring 0 i name,
            String.substring (i + 2) (String.length name - (i + 2)) name)
  | None => None
  end.

Definition has_dimension (name : string) (ds : DataSource) : bool :=
  mem name (dimension_names ds).

Definition has_element (name : string) (ds : DataSource) : bool :=
  mem name (dimension_names ds) || mem name (identifier_names ds).

(** Modelled from the spec: step 1 of 4.2, the local DataSource that
    answers [name] without a join, by the bare name of one of its
    dimensions or as [data_source__dimension]. *)
Definition local_owner (locals : list DataSource) (name : string)
  : option DataSource :=
  match find (has_dimension name) locals with
  | Some ds => Some ds
  | None =>
      match split_qualified name with
      | Some (qualifier, element) =>
          find (fun ds => String.eqb (ds_name ds) qualifier
                          && has_dimension element ds) locals
      | None => None
      end
  end.

Section Validator.
Context {MT : Matcher} {JS : JoinSearch}.

(** Modelled from the spec: the Join-Path Resolver of section 4.2.  A local
    dimension resolves with an empty path (step 1); an unqualified name that
    no DataSource defines is reached by no search (step 3); every other name
    is left to the search over the identifier graph. *)
Definition resolve_join (m : SemanticModel) (locals : list DataSource)
    (name : string) : JoinResult :=
  match local_owner locals name with
  | Some ds => Resolved [] (ds_name ds)
  | None =>
      if negb (is_qualified name)
         && negb (existsb (has_element name) (data_sources m))
      then NotFound
      else join_search m locals name
  end.

(** ** Query validator (section 4.3) *)

Inductive Reason : Type :=
| DoesNotExist
| AmbiguousJoin
| FanoutJoin.

(** Modelled from the spec: the error taxonomy of section 7. *)
Inductive QueryError : Type :=
| UnknownMetric (name : string) (suggestions : list string)
| UnknownElement (name : string) (suggestions : list string)
| UnresolvableDimension (names metric_names : list string)
    (reasons : list Reason) (suggestions : list (string * list string)).

Record ResolvedQuery : Type := {
  query_metrics : list Metric;
  query_group_bys : list (string * JoinResult)
}.

Inductive Validation : Type :=
| Valid (q : ResolvedQuery)
| Invalid (e : QueryError).

(** Modelled from the spec: step 1 of 4.3, the metrics are looked up in
    order and the first unknown one fails the query. *)
Fixpoint resolve_metrics (m : SemanticModel) (names : list string)
  : QueryError + list Metric :=
  match names with
  | [] => inr []
  | name :: rest =>
      match metric_named m name with
      | None => inl (UnknownMetric name (suggest name (metric_vocabulary m)))
      | Some mt =>
          match resolve_metrics m rest with
          | inl e => inl e
          | inr mts => inr (mt :: mts)
          end
      end
  end.

Definition failure_of (r : JoinResult) : option Reason :=
  match r with
  | Resolved _ _ => None
  | NotFound => Some DoesNotExist
  | Ambiguous => Some AmbiguousJoin
  | RequiresFanout => Some FanoutJoin
  end.

Definition fails (r : JoinResult) : bool :=
  match failure_of r with
  | Some _ => true
  | None => false
  end.

(** The group-bys that fail, in the order of the request, each with its
    reason. *)
Fixpoint failures (outcomes : list (string * JoinResult)) : list (string * Reason) :=
  match outcomes with
  | [] => []
  | (name, r) :: rest =>
      match failure_of r with
      | Some reason => (name, reason) :: failures rest
      | None => failures rest
      end
  end.

(** Modelled from the spec: the suggestions of step 3 of 4.3, over all
    dimension and identifier names for a name that does not exist, over the
    reachable names otherwise. *)
Definition suggestions_for (m : SemanticModel) (locals : list DataSource)
    (failure : string * Reason) : list string :=
  match snd failure with
  | DoesNotExist => suggest (fst failure) (element_vocabulary m)
  | AmbiguousJoin | FanoutJoin => suggest (fst failure) (reachable_names m locals)
  end.

(** Modelled from the spec: steps 3 and 5 of 4.3, one error for all failed
    group-bys; a single name that does not exist is an [UnknownElement]. *)
Definition group_by_error (m : SemanticModel) (locals : list DataSource)
    (requested_metrics : list string) (failed : list (string * Reason))
  : option QueryError :=
  match failed with
  | [] => None
  | [(name, DoesNotExist)] =>
      Some (UnknownElement name (suggest name (element_vocabulary m)))
  | _ =>
      Some (UnresolvableDimension
              (map fst failed) requested_metrics (map snd failed)
              (map (fun f => (fst f, suggestions_for m locals f)) failed))
  end.

(** Modelled from the spec: [parse_and_validate_query] of section 4.3. *)
Definition parse_and_validate_query (m : SemanticModel)
    (metric_names group_by_names : list string) : Validation :=
  match resolve_metrics m metric_names with
  | inl e => Invalid e
  | inr resolved =>
      let locals := local_data_sources m resolved in
      let outcomes :=
        map (fun name => (name, resolve_join m locals name)) group_by_names in
      match group_by_error m locals metric_names (failures outcomes) with
      | Some e => Invalid e
      | None => Valid {| query_metrics := resolved; query_group_bys := outcomes |}
      end
  end.

End Validator.

(** ** Wire format of the errors (section 6) *)

(** A list of names as Python prints it. *)
Definition py_names (names : list string) : string :=
  "[" ++ String.concat ", " (map (fun s => "'" ++ s ++ "'") names) ++ "]".

(** Modelled from the spec: the title line of an error, in the wording the
    tests observe. *)
Definition error_title (e : QueryError) : string :=
  "Unable To Satisfy Query Error: " ++
  match e with
  | UnknownMetric name _ => "Unknown metric: '" ++ name ++ "'"
  | UnknownElement name _ =>
      "Unknown element name '" ++ name ++ "' in dimension name '" ++ name ++ "'"
  | UnresolvableDimension names metric_names _ _ =>
      "Dimensions " ++ py_names names ++ " cannot be resolved for metrics "
      ++ py_names metric_names
      ++ ". The invalid dimension may not exist, require an ambiguous join "
      ++ "(e.g. a join path that can be satisfied in multiple ways), "
      ++ "or require a fanout join."
  end.

End Query.

(** ** The models of the test scenarios *)

Module Scenario.
Import Query.

Definition measure (name : string) (agg : AggregationKind) (expr : string)
    (flag : bool) : Measure :=
  {| measure_name := name; measure_agg := agg; measure_expr := expr;
     create_metric := flag |}.

(** [EXTENDED_BOOKINGS_YAML] *)
Definition bookings_source : DataSource := {|
  ds_name := "bookings_source";
  ds_description := "";
  ds_source := "SELECT * FROM bookings_source_table";
  ds_measures :=
    [measure "bookings" Sum "1" true;
     measure "instant_bookings" SumBoolean "is_instant" true;
     measure "booking_value" Sum "booking_value" true;
     measure "max_booking_value" Max "booking_value" true;
     measure "min_booking_value" Min "booking_value" true;
     measure "bookers" CountDistinct "guest_id" true;
     measure "average_booking_value" Average "booking_value" true;
     measure "booking_payments" Sum "booking_value" true;
     measure "referred_bookings" Count "referrer_id" true];
  ds_dimensions :=
    [{| dimension_name := "is_instant"; dimension_kind := Categorical |};
     {| dimension_name := "ds"; dimension_kind := Time true Day |}];
  ds_identifiers :=
    [{| identifier_name := "listing"; identifier_role := Foreign;
        identifier_expr := "listing_id" |}]
|}.

(** [LISTINGS_YAML] *)
Definition listings_latest : DataSource := {|
  ds_name := "listings_latest";
  ds_description := "listings_latest";
  ds_source := "schema.table";
  ds_measures := [measure "listings" Sum "1" false];
  ds_dimensions :=
    [{| dimension_name := "ds"; dimension_kind := Time true Day |};
     {| dimension_name := "created_at"; dimension_kind := Time false Day |};
     {| dimension_name := "country_latest"; dimension_kind := Categorical |};
     {| dimension_name := "capacity_latest"; dimension_kind := Categorical |}];
  ds_identifiers :=
    [{| identifier_name := "listing"; identifier_role := Primary;
        identifier_expr := "listing_id" |};
     {| identifier_name := "user"; identifier_role := Foreign;
        identifier_expr := "user_id" |}]
|}.

(** The finished model of a list of data sources: every measure flagged
    [create_metric] comes with the one-measure metric of its name. *)
Definition finished_model (sources : list DataSource) : SemanticModel := {|
  data_sources := sources;
  metrics :=
    map (fun name => {| metric_name := name; metric_measures := [name] |})
        (flat_map (fun ds => map measure_name (filter create_metric (ds_measures ds)))
                  sources)
|}.

(** The model of scenarios A and B. *)
Definition bookings_model : SemanticModel := finished_model [bookings_source].

(** The model of scenario C. *)
Definition listings_model : SemanticModel :=
  finished_model [bookings_source; listings_latest].

(** *** A matcher and a search to run the validator with *)

(** One row of the edit-distance table: [prev] is the row above without its
    first cell, [diag] and [left] are the cells up-left and left. *)
Fixpoint lev_row (c : ascii) (t : string) (prev : list nat) (diag left : nat)
  : list nat :=
  match t, prev with
  | String d t', up :: prev' =>
      let cost := if Ascii.eqb c d then 0 else 1 in
      let v := Nat.min (Nat.min (up + 1) (left + 1)) (diag + cost) in
      v :: lev_row c t' prev' up v
  | _, _ => []
  end.

Fixpoint lev_rows (s t : string) (row : list nat) (i : nat) : list nat :=
  match s with
  | EmptyString => row
  | String c s' => lev_rows s' t (lev_row c t row i (S i)) (S i)
  end.

Definition levenshtein (s t : string) : nat :=
  last (lev_rows s t (seq 1 (String.length t)) 0) (String.length s).

(** Normalised Levenshtein similarity, in percent. *)
Definition levenshtein_percent (s t : string) : Z :=
  let longest := Nat.max (String.length s) (String.length t) in
  match longest with
  | O => 100
  | _ => 100 - (100 * Z.of_nat (levenshtein s t)) / Z.of_nat longest
  end.

#[export] Instance levenshtein_matcher : Matcher := {|
  similarity := levenshtein_percent;
  threshold := 50
|}.

(** A search for models without joins: nothing is reached beyond the local
    DataSources. *)
#[export] Instance no_joins : JoinSearch := {|
  join_search := fun _ _ _ => NotFound;
  reachable_names := fun _ locals => dedup (flat_map dimension_names locals)
|}.

(** *** The matcher that fits the tests *)

(** One row of the table of longest common subsequences: [prev] is the row
    above without its first cell, [diag] and [left] are the cells up-left
    and left. *)
Fixpoint lcs_row (c : ascii) (t : string) (prev : list nat) (diag left : nat)
  : list nat :=
  match t, prev with
  | String d t', up :: prev' =>
      let v := if Ascii.eqb c d then S diag else Nat.max up left in
      v :: lcs_row c t' prev' up v
  | _, _ => []
  end.

Fixpoint lcs_rows (s t : string) (row : list nat) : list nat :=
  match s with
  | EmptyString => row
  | String c s' => lcs_rows s' t (lcs_row c t row 0 0)
  end.

(** The length of a longest common subsequence of [s] and [t]. *)
Definition lcs (s t : string) : nat :=
  last (lcs_rows s t (repeat 0 (String.length t))) 0.

(** Modelled from the spec: the ratio-based similarity that section 4.4
    names, twice the number of matching characters over the total length,
    in percent (rounded down). *)
Definition ratio_percent (s t : string) : Z :=
  let total := (String.length s + String.length t)%nat in
  match total with
  | O => 100
  | _ => (200 * Z.of_nat (lcs s t)) / Z.of_nat total
  end.

(** Modelled from the spec: the ratio-based matcher of section 4.4 at
    threshold [t].  Of the two measures that the specification names,
    normalised Levenshtein puts ['bookers'] second in scenario A, which the
    test does not observe; the ratio gives the lists that the tests of
    scenarios A and B observe at every threshold from 50 to 57. *)
Definition ratio_matcher (t : Z) : Matcher := {|
  similarity := ratio_percent;
  threshold := t
|}.


End Scenario.

(** * Properties *)

(** ** The dbt manifest transformer *)

Section DbtFacts.
Import Dbt.
Context {E : Externals}.

Lemma dict_get_meta_get (d : dict) (k : string) :
  dict_get d k = None -> meta_get d k = VNone.
Proof. unfold meta_get. now intros ->. Qed.

Lemma fill_col_skips (col : DbtColumn) (ds : PartialDataSource) :
  is_none (meta_get (col_meta col) "mf") = true -> __fill_col col ds = Ok (tt, ds).
Proof. unfold __fill_col. now intros ->. Qed.

(** C10: a column whose [meta.mf] is a mapping without the key [mf_type]
    gets exactly two errors appended to the issues, first ['mf_type not
    found'] and then ['invalid meta.mf.mf_type ... value: None'], and the
    identifiers, dimensions, measures and table of the partial data source
    stay as they were. *)
Theorem fill_col_without_mf_type (col : DbtColumn) (mf : dict) (ds : PartialDataSource) :
  dict_get (col_meta col) "mf" = Some (VDict mf) ->
  dict_get mf "mf_type" = None ->
  __fill_col col ds =
  Ok (tt, {| sql_table := sql_table ds;
             issues := (issues ds ++
               [ValidationError ("meta.mf.mf_type not found for col: " ++ col_name col);
                ValidationError ("invalid meta.mf.mf_type for col: " ++ col_name col
                                 ++ ", value: None")])%list;
             measures := measures ds;
             identifiers := identifiers ds;
             dimensions := dimensions ds |}).
Proof.
  intros Hmf Hty.
  unfold __fill_col, meta_get. rewrite Hmf. cbn [is_none].
  unfold bind, lift, py_get. rewrite Hty.
  cbn -[String.append]. unfold append_issue. cbn -[String.append].
  now rewrite <- app_assoc.
Qed.

Lemma build_loop_skips (m : DbtModel) (before after : list DbtModel) :
  is_none (meta_get (node_meta m) "mf") = true ->
  forall acc_issues acc_sources,
    build_loop (before ++ m :: after) acc_issues acc_sources =
    build_loop (before ++ after) acc_issues acc_sources.
Proof.
  intros Hskip. induction before as [|x before IH]; intros acc_issues acc_sources.
  - cbn [app build_loop]. now rewrite Hskip.
  - cbn [app build_loop].
    destruct (is_none (meta_get (node_meta x) "mf")); [apply IH|].
    destruct (__to_data_source x) as [[data_source model_issues]|e]; [apply IH|reflexivity].
Qed.

Lemma dbt_models_app (before after : list (string * DbtModel)) :
  __dbt_models {| nodes := before ++ after |} =
  (__dbt_models {| nodes := before |} ++ __dbt_models {| nodes := after |})%list.
Proof. unfold __dbt_models. cbn [nodes]. now rewrite filter_app, map_app. Qed.

(** C9: a node whose [meta] has no key [mf] adds neither a data source nor
    an issue: the build of a manifest that holds the node anywhere among its
    nodes gives what the build of the manifest without it gives (also when
    that build raises). *)
Theorem build_skips_node_without_mf
    (key : string) (m : DbtModel) (before after : list (string * DbtModel)) :
  dict_get (node_meta m) "mf" = None ->
  build_user_configured_model {| nodes := before ++ (key, m) :: after |} =
  build_user_configured_model {| nodes := before ++ after |}.
Proof.
  intros Hmf. unfold build_user_configured_model.
  rewrite !dbt_models_app.
  replace (__dbt_models {| nodes := (key, m) :: after |})
    with (if String.prefix "model." key
          then m :: __dbt_models {| nodes := after |}
          else __dbt_models {| nodes := after |}).
  2:{ unfold __dbt_models. cbn [nodes filter fst].
      now destruct (String.prefix "model." key). }
  destruct (String.prefix "model." key); [|reflexivity].
  rewrite build_loop_skips; [reflexivity|].
  now rewrite (dict_get_meta_get _ _ Hmf).
Qed.

(** C8: [parse_dbt_project_to_model] returns a result exactly when the
    manifest loads, the transformer builds [dbt_build_result], the [metrics]
    directory parses to [mf_build_result] and the model transformer accepts
    the dbt model carrying the metrics of [mf_build_result]; the result then
    holds the transformed model and the issues of [dbt_build_result].  The
    issues of [mf_build_result] occur nowhere in it. *)
Theorem parse_dbt_project_keeps_dbt_issues {C : Collaborators}
    (directory : string) (profile target : option string) (r : ModelBuildResult) :
  parse_dbt_project_to_model directory profile target = Ok r <->
  exists (manifest : DbtManifest) (dbt_build_result mf_build_result : ModelBuildResult),
    get_dbt_project_manifest directory profile target = Ok manifest /\
    build_user_configured_model manifest = Ok dbt_build_result /\
    parse_directory_of_yaml_files_to_model (joinpath directory "metrics")
      = Ok mf_build_result /\
    ModelTransformer_transform
      {| data_sources := data_sources (model dbt_build_result);
         metrics := metrics (model mf_build_result) |} = Ok (model r) /\
    build_issues r = build_issues dbt_build_result.
Proof.
  unfold parse_dbt_project_to_model, set_metrics. split.
  - intros H.
    destruct (get_dbt_project_manifest directory profile target)
      as [manifest|] eqn:Hmanifest; [|discriminate]. cbn [rbind] in H.
    destruct (build_user_configured_model manifest)
      as [dbt_build_result|] eqn:Hbuild; [|discriminate]. cbn [rbind] in H.
    destruct (parse_directory_of_yaml_files_to_model (joinpath directory "metrics"))
      as [mf_build_result|] eqn:Hyaml; [|discriminate]. cbn [rbind] in H.
    destruct (ModelTransformer_transform _)
      as [transformed_model|] eqn:Htransform; [|discriminate]. cbn [rbind] in H.
    injection H as <-.
    exists manifest, dbt_build_result, mf_build_result. cbn [model build_issues].
    repeat split; assumption.
  - intros (manifest & dbt_build_result & mf_build_result
            & Hmanifest & Hbuild & Hyaml & Htransform & Hissues).
    rewrite Hmanifest. cbn [rbind]. rewrite Hbuild. cbn [rbind].
    rewrite Hyaml. cbn [rbind]. rewrite Htransform. cbn [rbind].
    destruct r as [m i]. cbn [model build_issues] in *. now rewrite Hissues.
Qed.

(** *** Where the expression of a measure comes from *)

Lemma measure_of_entry_dict (entry : PyVal) (msr : Measure) :
  measure_of_entry entry = Ok msr -> exists d, entry = VDict d.
Proof.
  destruct entry; cbn; try discriminate. intros _. now eexists.
Qed.

Lemma measure_of_entry_expr (d : dict) (msr : Measure) :
  measure_of_entry (VDict d) = Ok msr ->
  dict_get d "expr" = None ->
  measure_expr msr = measure_name msr.
Proof.
  unfold measure_of_entry, py_getitem, py_get. intros H Hexpr.
  rewrite Hexpr in H.
  destruct (dict_get d "name") as [name|]; [|discriminate]. cbn [rbind] in H.
  destruct (dict_get d "agg") as [agg|]; [|discriminate]. cbn [rbind] in H.
  destruct (py_upper agg); [|discriminate]. cbn [rbind] in H.
  now injection H as <-.
Qed.

Lemma fill_measures_appends (entries : list PyVal) :
  forall ds ds',
    fill_measures entries ds = Ok (tt, ds') ->
    exists built,
      measures ds' = (measures ds ++ built)%list /\
      Forall2 (fun entry msr => measure_of_entry entry = Ok msr) entries built.
Proof.
  induction entries as [|entry entries IH]; intros ds ds' H.
  - injection H as <-. exists []. split; [now rewrite app_nil_r|constructor].
  - cbn [fill_measures] in H. unfold bind, lift in H.
    destruct (measure_of_entry entry) as [msr|] eqn:Hentry; [|discriminate].
    cbn in H. apply IH in H as (built & Hms & Hall). cbn [measures] in Hms.
    exists (msr :: built). split.
    + now rewrite Hms, <- app_assoc.
    + now constructor.
Qed.

Lemma bind_ok {A B} (m : M A) (k : A -> M B) ds r :
  bind m k ds = Ok r -> exists a ds1, m ds = Ok (a, ds1) /\ k a ds1 = Ok r.
Proof.
  unfold bind. destruct (m ds) as [[a ds1]|]; [|discriminate].
  intros H. now exists a, ds1.
Qed.

Lemma lift_ok {A} (r : result A) ds a ds1 :
  lift r ds = Ok (a, ds1) -> r = Ok a /\ ds1 = ds.
Proof.
  unfold lift. destruct r; [|discriminate]. intros H. now injection H as -> ->.
Qed.

Lemma append_issue_measures msg ds u ds1 :
  append_issue msg ds = Ok (u, ds1) -> measures ds1 = measures ds.
Proof. unfold append_issue. intros H. now injection H as _ <-. Qed.

(** One statement of a method body: split it off, naming its value, the
    state after it and the equation of its outcome. *)
Ltac step H v s Hv :=
  apply bind_ok in H as (v & s & Hv & H);
  first [ apply lift_ok in Hv as [Hv ->] | idtac ].

Lemma snoc_not_nil {A} (l : list A) (x : A) : l <> (l ++ [x])%list.
Proof.
  intros H. apply (f_equal (@List.length A)) in H.
  rewrite length_app in H. cbn in H. lia.
Qed.

Lemma snoc_inj {A} (l : list A) (x y : A) : (l ++ [x] = l ++ [y])%list -> x = y.
Proof. intros H. apply app_inv_head in H. now injection H. Qed.

(** C7, as the code has it: a measure declared in [model.meta.mf.measures]
    without [expr] gets its own name as expression; a measure declared on a
    column without [expr] gets the name of the column as expression, which
    is the name of the measure when [meta.mf] gives no [name]. *)
Theorem measure_expr_default :
  (forall (dbt_model : DbtModel) (mf : dict) (v : PyVal) (entries : list PyVal)
          (ds ds' : PartialDataSource),
      dict_get (node_meta dbt_model) "mf" = Some (VDict mf) ->
      dict_get mf "measures" = Some v ->
      py_iter v = Ok entries ->
      __fill_dbt_model_meta dbt_model ds = Ok (tt, ds') ->
      exists built,
        measures ds' = (measures ds ++ built)%list /\
        Forall2 (fun entry msr =>
                   exists d, entry = VDict d /\
                     (dict_get d "expr" = None ->
                      measure_expr msr = measure_name msr))
                entries built)
  /\
  (forall (col : DbtColumn) (mf : dict) (ds ds' : PartialDataSource) (msr : Measure),
      dict_get (col_meta col) "mf" = Some (VDict mf) ->
      dict_get mf "expr" = None ->
      __fill_col col ds = Ok (tt, ds') ->
      measures ds' = (measures ds ++ [msr])%list ->
      measure_expr msr = VStr (col_name col) /\
      (dict_get mf "name" = None -> measure_expr msr = measure_name msr)).
Proof.
  split.
  - intros dbt_model mf v entries ds ds' Hmf Hmeasures Hiter H.
    unfold __fill_dbt_model_meta, meta_get in H. rewrite Hmf in H.
    cbn [is_none] in H.
    unfold bind, lift, get_sql_table, set_sql_table, py_get in H.
    rewrite Hmeasures in H. cbn -[String.append] in H.
    destruct (is_none v) eqn:Hnone.
    { destruct v; try discriminate Hnone. discriminate Hiter. }
    rewrite Hiter in H.
    apply fill_measures_appends in H as (built & Hms & Hall).
    exists built. split; [exact Hms|].
    clear - Hall. induction Hall as [|entry msr entries built Hentry _ IH]; constructor; [|exact IH].
    destruct (measure_of_entry_dict _ _ Hentry) as [d ->].
    exists d. split; [reflexivity|]. now apply measure_of_entry_expr.
  - intros col mf ds ds' msr Hmf Hexpr H Hms.
    unfold __fill_col, meta_get in H. rewrite Hmf in H. cbn [is_none] in H.
    step H mf_type s0 Hty. step H mf_type' s1 Hty'. step H u s2 Hissue.
    assert (Hkeep : measures s2 = measures ds).
    { destruct (is_none mf_type').
      - now apply append_issue_measures in Hissue.
      - unfold ret in Hissue. now injection Hissue as _ <-. }
    clear Hissue. step H name s3 Hname. step H expr s4 Hex. step H type_name s5 Htn.
    unfold py_get in Hname, Hex. rewrite Hexpr in Hex.
    injection Hex as <-.
    destruct (py_eq_str mf_type "identifier").
    { exfalso. destruct (is_none type_name).
      - apply append_issue_measures in H. rewrite H, Hkeep in Hms.
        now apply snoc_not_nil in Hms.
      - step H upper s6 Hup. step H ty s7 Hfor.
        unfold append_identifier in H. injection H as <-.
        cbn [measures] in Hms. rewrite Hkeep in Hms. now apply snoc_not_nil in Hms. }
    destruct (py_eq_str mf_type "dimension").
    { exfalso. destruct (is_none type_name).
      - apply append_issue_measures in H. rewrite H, Hkeep in Hms.
        now apply snoc_not_nil in Hms.
      - step H type_params_dict s6 Htpd. step H type_params s7 Htp.
        assert (Hkeep' : measures s7 = measures s2).
        { destruct (is_none type_params_dict).
          - unfold ret in Htp. now injection Htp as _ <-.
          - step Htp tp s8 Hparse. unfold ret in Htp. now injection Htp as _ <-. }
        step H upper s8 Hup. step H ty s9 Hfor.
        unfold append_dimension in H. injection H as <-.
        cbn [measures] in Hms. rewrite Hkeep', Hkeep in Hms.
        now apply snoc_not_nil in Hms. }
    destruct (py_eq_str mf_type "measure").
    { step H agg s6 Hagg. destruct (is_none agg).
      - exfalso. apply append_issue_measures in H. rewrite H, Hkeep in Hms.
        now apply snoc_not_nil in Hms.
      - step H kind s7 Hkind. unfold append_measure in H. injection H as <-.
        cbn [measures] in Hms. rewrite Hkeep in Hms. apply snoc_inj in Hms.
        subst msr. cbn [measure_expr measure_name]. split; [reflexivity|].
        intros Hnone. rewrite Hnone in Hname. now injection Hname as <-. }
    exfalso. apply append_issue_measures in H. rewrite H, Hkeep in Hms.
    now apply snoc_not_nil in Hms.
Qed.

End DbtFacts.

(** *** The transformer on the sample manifest *)

Section DbtRuns.
Import Dbt DbtSample.

Lemma fill_col_without_mf_type_witness :
  __fill_col untyped_col empty_partial =
  Ok (tt, {| sql_table := VStr "db.schema.orders";
             issues :=
               [ValidationError "meta.mf.mf_type not found for col: status";
                ValidationError "invalid meta.mf.mf_type for col: status, value: None"];
             measures := [];
             identifiers := [];
             dimensions := [] |}).
Proof.
  exact (fill_col_without_mf_type untyped_col [("type", VStr "categorical")]
           empty_partial eq_refl eq_refl).
Defined.

Lemma build_skips_node_without_mf_witness :
  build_user_configured_model
    {| nodes := [("model.shop.orders", orders_model);
                 ("model.shop.stg_orders", staging_model)] |} =
  build_user_configured_model
    {| nodes := [("model.shop.orders", orders_model)] |}.
Proof.
  exact (build_skips_node_without_mf "model.shop.stg_orders" staging_model
           [("model.shop.orders", orders_model)] [] eq_refl).
Defined.

Lemma parse_dbt_project_keeps_dbt_issues_witness :
  parse_dbt_project_to_model "shop" None None =
  Ok {| model := {| data_sources := data_sources (model orders_build);
                    metrics := ["revenue_total"] |};
        build_issues :=
          [ValidationError "meta.mf.mf_type not found for col: status";
           ValidationError "invalid meta.mf.mf_type for col: status, value: None"] |}.
Proof.
  apply (parse_dbt_project_keeps_dbt_issues "shop" None None).
  exists orders_manifest, orders_build, metrics_build.
  repeat split.
Defined.

Lemma measure_expr_default_witness :
  (exists built,
      measures (E := externals)
        {| sql_table := VStr "db.schema.orders";
           issues := [];
           measures := built;
           identifiers := [];
           dimensions := [] |} = built /\
      Forall2 (fun entry msr =>
                 exists d, entry = VDict d /\
                   (dict_get d "expr" = None -> measure_expr msr = measure_name msr))
              [VDict [("name", VStr "order_count"); ("agg", VStr "count")]] built)
  /\ (measure_expr
        {| measure_name := VStr "revenue";
           measure_description := VStr "amount";
           measure_agg := @AggKind externals "sum";
           measure_expr := VStr "amount" |} = VStr (col_name amount_col)).
Proof.
  destruct measure_expr_default as [Hmodel Hcol]. split.
  - destruct (Hmodel orders_model _ _ _ empty_partial _ eq_refl eq_refl eq_refl eq_refl)
      as (built & Hms & Hall).
    exists built. split; [reflexivity|exact Hall].
  - refine (proj1 (Hcol amount_col _ empty_partial _ _ eq_refl eq_refl eq_refl eq_refl)).
Defined.

(** C7 as the specification words it fails on a column measure that
    [meta.mf.name] renames: the column [amount], published as [revenue]
    without [expr], yields a measure named [revenue] whose expression is
    [amount]. *)
Lemma column_measure_expr_is_not_its_name :
  dict_get [("mf_type", VStr "measure"); ("name", VStr "revenue"); ("agg", VStr "sum")]
    "expr" = None
  /\ exists msr,
      __fill_col amount_col empty_partial =
      Ok (tt, {| sql_table := VStr "db.schema.orders";
                 issues := [];
                 measures := [msr];
                 identifiers := [];
                 dimensions := [] |})
      /\ measure_name msr = VStr "revenue"
      /\ measure_expr msr = VStr "amount"
      /\ measure_expr msr <> measure_name msr.
Proof.
  split; [reflexivity|].
  exists {| measure_name := VStr "revenue";
            measure_description := VStr "amount";
            measure_agg := @AggKind externals "sum";
            measure_expr := VStr "amount" |}.
  repeat split. discriminate.
Qed.

End DbtRuns.

(** ** The suggestion engine *)

Section QueryFacts.
Import Query.
Context {MT : Matcher} {JS : JoinSearch}.

Lemma ranks_before_spec (name a b : string) :
  ranks_before name a b = true <-> ranked name a b.
Proof.
  unfold ranks_before, ranked.
  rewrite orb_true_iff, andb_true_iff.
  now rewrite Z.ltb_lt, Z.eqb_eq, Nat.leb_le.
Qed.

Lemma ranked_total (name a b : string) : ranked name a b \/ ranked name b a.
Proof.
  unfold ranked.
  destruct (Z.lt_trichotomy (similarity name a) (similarity name b)) as [H|[H|H]];
    [right; now left | | left; now left].
  destruct (Nat.le_gt_cases (String.length a) (String.length b)) as [L|L].
  - left. right. auto.
  - right. right. split; [auto|lia].
Qed.

Lemma ranked_trans (name a b c : string) :
  ranked name a b -> ranked name b c -> ranked name a c.
Proof.
  unfold ranked. intros [H1|[E1 L1]] [H2|[E2 L2]]; try (left; lia).
  right. split; lia.
Qed.

Lemma insert_ranked_In (name c x : string) (l : list string) :
  In x (insert_ranked name c l) <-> x = c \/ In x l.
Proof.
  induction l as [|y l IH]; cbn [insert_ranked].
  - cbn. intuition.
  - destruct (ranks_before name c y); cbn [In]; [intuition|].
    rewrite IH. intuition.
Qed.

Lemma sort_ranked_In (name x : string) (l : list string) :
  In x (sort_ranked name l) <-> In x l.
Proof.
  induction l as [|y l IH]; cbn [sort_ranked]; [reflexivity|].
  rewrite insert_ranked_In, IH. cbn. intuition.
Qed.

Lemma insert_ranked_sorted (name c : string) (l : list string) :
  StronglySorted (ranked name) l ->
  StronglySorted (ranked name) (insert_ranked name c l).
Proof.
  induction 1 as [|y l Hl IH Hy]; cbn [insert_ranked].
  - repeat constructor.
  - destruct (ranks_before name c y) eqn:Hcy.
    + apply ranks_before_spec in Hcy.
      constructor; [now constructor|].
      constructor; [exact Hcy|].
      rewrite Forall_forall in *. intros z Hz.
      apply ranked_trans with y; auto.
    + constructor; [exact IH|].
      rewrite Forall_forall in *. intros z Hz.
      apply insert_ranked_In in Hz as [->|Hz]; [|auto].
      destruct (ranked_total name y c) as [H|H]; [exact H|].
      apply ranks_before_spec in H. congruence.
Qed.

Lemma sort_ranked_sorted (name : string) (l : list string) :
  StronglySorted (ranked name) (sort_ranked name l).
Proof.
  induction l; cbn [sort_ranked]; [constructor|now apply insert_ranked_sorted].
Qed.

Lemma insert_ranked_NoDup (name c : string) (l : list string) :
  ~ In c l -> NoDup l -> NoDup (insert_ranked name c l).
Proof.
  intros Hc Hl. induction Hl as [|y l Hy Hl IH]; cbn [insert_ranked].
  - constructor; [auto|constructor].
  - destruct (ranks_before name c y).
    + constructor; [exact Hc|now constructor].
    + constructor.
      * rewrite insert_ranked_In. cbn in Hc. intuition.
      * apply IH. cbn in Hc. intuition.
Qed.

Lemma sort_ranked_NoDup (name : string) (l : list string) :
  NoDup l -> NoDup (sort_ranked name l).
Proof.
  induction 1 as [|y l Hy Hl IH]; cbn [sort_ranked]; [constructor|].
  apply insert_ranked_NoDup; [|exact IH]. now rewrite sort_ranked_In.
Qed.

Lemma firstn_In {A} (n : nat) (l : list A) (x : A) :
  In x (firstn n l) -> In x l.
Proof.
  revert n. induction l as [|y l IH]; intros [|n]; cbn; try tauto.
  intros [->|H]; [now left|right; eauto].
Qed.


Lemma suggest_In (name c : string) (vocabulary : list string) :
  In c (suggest name vocabulary) ->
  In c vocabulary /\ (threshold < similarity name c)%Z.
Proof.
  unfold suggest. intros H. apply firstn_In in H.
  apply sort_ranked_In, filter_In in H as [Hin Habove].
  split; [exact Hin|]. now apply Z.ltb_lt.
Qed.

(** *** Candidates that tie keep the order of the vocabulary *)








Lemma insert_ranked_length (name c : string) (l : list string) :
  List.length (insert_ranked name c l) = S (List.length l).
Proof.
  induction l as [|x l IH]; cbn [insert_ranked]; [reflexivity|].
  destruct (ranks_before name c x); cbn [List.length]; [reflexivity|].
  now rewrite IH.
Qed.

Lemma sort_ranked_length (name : string) (l : list string) :
  List.length (sort_ranked name l) = List.length l.
Proof.
  induction l as [|c l IH]; cbn [sort_ranked]; [reflexivity|].
  rewrite insert_ranked_length. cbn [List.length]. now rewrite IH.
Qed.

(** The cap is the only reason to drop a candidate above the threshold. *)
Lemma suggest_length (name : string) (vocabulary : list string) :
  List.length (suggest name vocabulary) =
  Nat.min 6 (List.length (filter (above_threshold name) vocabulary)).
Proof.
  unfold suggest. now rewrite length_firstn, sort_ranked_length.
Qed.


Lemma dedup_In (x : string) (l : list string) : In x (dedup l) <-> In x l.
Proof.
  induction l as [|y l IH]; cbn [dedup In]; [reflexivity|].
  rewrite filter_In, IH, negb_true_iff, String.eqb_neq.
  destruct (String.eqb_spec x y); intuition.
Qed.

Lemma dedup_NoDup (l : list string) : NoDup (dedup l).
Proof.
  induction l as [|y l IH]; cbn [dedup]; constructor.
  - rewrite filter_In, negb_true_iff, String.eqb_neq. tauto.
  - now apply NoDup_filter.
Qed.

(** The best candidate leads the suggestions: a candidate above the
    threshold that scores strictly higher than every other candidate comes
    first, and only once. *)
Lemma suggest_best (name best : string) (vocabulary : list string) :
  NoDup vocabulary ->
  In best vocabulary ->
  (threshold < similarity name best)%Z ->
  (forall c, In c vocabulary -> c <> best ->
             (similarity name c < similarity name best)%Z) ->
  exists rest, suggest name vocabulary = best :: rest /\ ~ In best rest.
Proof.
  intros Hnodup Hin Habove Hmax. unfold suggest.
  pose proof (sort_ranked_sorted name (filter (above_threshold name) vocabulary)) as Hsorted.
  pose proof (sort_ranked_NoDup name _ (NoDup_filter (above_threshold name) Hnodup)) as Hnd.
  assert (Hbest : In best (sort_ranked name (filter (above_threshold name) vocabulary))).
  { apply sort_ranked_In, filter_In. split; [exact Hin|]. now apply Z.ltb_lt. }
  assert (Hsub : forall c, In c (sort_ranked name (filter (above_threshold name) vocabulary)) ->
                           In c vocabulary).
  { intros c Hc. now apply sort_ranked_In, filter_In in Hc. }
  destruct (sort_ranked name (filter (above_threshold name) vocabulary)) as [|h t];
    [contradiction|].
  apply StronglySorted_inv in Hsorted as [_ Hh].
  assert (h = best) as ->.
  { destruct (String.eqb_spec h best) as [|Hne]; [assumption|exfalso].
    destruct Hbest as [|Hbest]; [contradiction|].
    rewrite Forall_forall in Hh. specialize (Hh best Hbest).
    specialize (Hmax h (Hsub h (or_introl eq_refl)) Hne).
    unfold ranked in Hh. lia. }
  exists (firstn 5 t). split; [reflexivity|].
  intros H. apply firstn_In in H. now inversion Hnd.
Qed.

(** ** The query validator *)

Lemma resolve_metrics_unknown (m : SemanticModel) (requested : list string) :
  (exists name, In name requested /\ metric_named m name = None) ->
  exists name,
    In name requested /\ metric_named m name = None /\
    resolve_metrics m requested =
    inl (UnknownMetric name (suggest name (metric_vocabulary m))).
Proof.
  induction requested as [|n requested IH]; intros (name & Hin & Hnone).
  - contradiction.
  - cbn [resolve_metrics].
    destruct (metric_named m n) as [mt|] eqn:Hn.
    + destruct Hin as [->|Hin]; [congruence|].
      destruct IH as (name' & Hin' & Hnone' & ->); [now exists name|].
      exists name'. repeat split; [now right|assumption].
    + exists n. repeat split; [now left|assumption].
Qed.

(** C6: when a requested metric is absent from the model the query fails
    with [UnknownMetric] for a requested name that the model does not have,
    and every suggestion is the name of a metric of the model or of a
    measure flagged as metric-generating. *)
Theorem unknown_metric_suggestions
    (m : SemanticModel) (requested group_by_names : list string) :
  (exists name, In name requested /\ metric_named m name = None) ->
  exists name suggestions,
    parse_and_validate_query m requested group_by_names =
    Invalid (UnknownMetric name suggestions) /\
    In name requested /\
    metric_named m name = None /\
    forall s, In s suggestions ->
      (exists mt, In mt (metrics m) /\ metric_name mt = s) \/
      (exists ds msr, In ds (data_sources m) /\ In msr (ds_measures ds) /\
                      create_metric msr = true /\ measure_name msr = s).
Proof.
  intros H. apply resolve_metrics_unknown in H as (name & Hin & Hnone & Hres).
  exists name, (suggest name (metric_vocabulary m)).
  unfold parse_and_validate_query. rewrite Hres.
  repeat split; [assumption|assumption|].
  intros s Hs. apply suggest_In in Hs as [Hs _].
  unfold metric_vocabulary in Hs. apply dedup_In, in_app_or in Hs as [Hs|Hs].
  - left. unfold metric_names in Hs. apply in_map_iff in Hs as (mt & <- & Hmt).
    now exists mt.
  - right. unfold metric_measure_names in Hs.
    apply in_flat_map in Hs as (ds & Hds & Hs).
    apply in_map_iff in Hs as (msr & <- & Hmsr).
    apply filter_In in Hmsr as [Hmsr Hflag].
    now exists ds, msr.
Qed.

Lemma failures_names (resolve : string -> JoinResult) (names : list string) :
  map fst (failures (map (fun name => (name, resolve name)) names)) =
  filter (fun name => fails (resolve name)) names.
Proof.
  induction names as [|n names IH]; cbn [map failures filter]; [reflexivity|].
  unfold fails. destruct (failure_of (resolve n)); cbn [map fst]; now rewrite IH.
Qed.

Lemma group_by_error_batches (m : SemanticModel) (locals : list DataSource)
    (requested : list string) (failed : list (string * Reason)) :
  (2 <= List.length failed)%nat ->
  group_by_error m locals requested failed =
  Some (UnresolvableDimension
          (map fst failed) requested (map snd failed)
          (map (fun f => (fst f, suggestions_for m locals f)) failed)).
Proof.
  destruct failed as [|[n1 r1] [|f2 rest]]; cbn [List.length]; try lia.
  intros _. unfold group_by_error. now destruct r1.
Qed.

(** C4: when the metrics resolve and two or more of the requested group-bys
    fail to resolve, the query fails with one [UnresolvableDimension] error
    that names every failed group-by, in the order of the request, carries
    one list of suggestions per failed name, and whose title reads
    ["Dimensions [...] cannot be resolved for metrics [...]"]. *)
Theorem group_by_failures_are_batched
    (m : SemanticModel) (requested group_by_names : list string)
    (resolved : list Metric) :
  resolve_metrics m requested = inr resolved ->
  (2 <= List.length
          (filter (fun name =>
                     fails (resolve_join m (local_data_sources m resolved) name))
                  group_by_names))%nat ->
  exists reasons suggestions,
    let failed_names :=
      filter (fun name =>
                fails (resolve_join m (local_data_sources m resolved) name))
             group_by_names in
    parse_and_validate_query m requested group_by_names =
    Invalid (UnresolvableDimension failed_names requested reasons suggestions) /\
    map fst suggestions = failed_names /\
    error_title (UnresolvableDimension failed_names requested reasons suggestions) =
    "Unable To Satisfy Query Error: Dimensions " ++ py_names failed_names
    ++ " cannot be resolved for metrics " ++ py_names requested
    ++ ". The invalid dimension may not exist, require an ambiguous join (e.g. a join path that can be satisfied in multiple ways), or require a fanout join.".
Proof.
  intros Hmetrics Htwo.
  set (locals := local_data_sources m resolved) in *.
  set (outcomes := map (fun name => (name, resolve_join m locals name)) group_by_names).
  pose proof (failures_names (resolve_join m locals) group_by_names) as Hnames.
  fold outcomes in Hnames.
  exists (map snd (failures outcomes)),
         (map (fun f => (fst f, suggestions_for m locals f)) (failures outcomes)).
  cbv zeta. rewrite <- Hnames in *. rewrite length_map in Htwo.
  repeat split.
  - unfold parse_and_validate_query. rewrite Hmetrics.
    fold locals. fold outcomes.
    now rewrite (group_by_error_batches m locals requested _ Htwo).
  - now rewrite map_map.
Qed.

Lemma threshold_in_range (t : Z) :
  (50 <= t <= 57)%Z ->
  t = 50%Z \/ t = 51%Z \/ t = 52%Z \/ t = 53%Z \/
  t = 54%Z \/ t = 55%Z \/ t = 56%Z \/ t = 57%Z.
Proof. lia. Qed.

(** C2, scenario A: with the ratio matcher, at every threshold from 50 to
    57 and whatever the join search, the query for the metric ['booking']
    fails with [UnknownMetric] and the six suggestions that the test
    observes, in its order; ['bookings'] leads them, and it scores strictly
    above every other name of the metric vocabulary. *)
Theorem scenario_a_unknown_metric (t : Z) :
  (50 <= t <= 57)%Z ->
  parse_and_validate_query (MT := Scenario.ratio_matcher t)
    Scenario.bookings_model ["booking"] ["is_instant"] =
  Invalid
    (UnknownMetric "booking"
       ["bookings"; "booking_value"; "instant_bookings"; "booking_payments";
        "max_booking_value"; "min_booking_value"]) /\
  Forall (fun c => c = "bookings" \/
                   (Scenario.ratio_percent "booking" c
                    < Scenario.ratio_percent "booking" "bookings")%Z)
         (metric_vocabulary Scenario.bookings_model).
Proof.
  intros Ht. split.
  - apply threshold_in_range in Ht.
    repeat (destruct Ht as [->|Ht]; [vm_compute; reflexivity|]).
    subst t. vm_compute. reflexivity.
  - repeat first
      [ apply Forall_nil
      | apply Forall_cons; [first [left; reflexivity | right; reflexivity]|] ].
Qed.

(** C5, scenario B: with the ratio matcher, at every threshold from 50 to
    57 and whatever the join search, the query for the metric ['bookings']
    grouped by ['is_instan'] fails with [UnknownElement] and the suggestions
    are exactly [['is_instant']]. *)
Theorem scenario_b_unknown_element (t : Z) :
  (50 <= t <= 57)%Z ->
  parse_and_validate_query (MT := Scenario.ratio_matcher t)
    Scenario.bookings_model ["bookings"] ["is_instan"] =
  Invalid (UnknownElement "is_instan" ["is_instant"]).
Proof.
  intros Ht. apply threshold_in_range in Ht.
  repeat (destruct Ht as [->|Ht]; [vm_compute; reflexivity|]).
  subst t. vm_compute. reflexivity.
Qed.


(** Scenario C: ['capacity_latest'] is no dimension of [bookings_source] and
    is defined by [listings_latest], so the outcome of the query is the
    outcome of the search over the identifier graph. *)
Lemma scenario_c_follows_the_search :
  parse_and_validate_query Scenario.listings_model ["bookings"] ["capacity_latest"] =
  let locals := [Scenario.bookings_source] in
  let bookings := {| metric_name := "bookings"; metric_measures := ["bookings"] |} in
  match join_search Scenario.listings_model locals "capacity_latest" with
  | Resolved hops target =>
      Valid {| query_metrics := [bookings];
               query_group_bys := [("capacity_latest", Resolved hops target)] |}
  | NotFound =>
      Invalid (UnknownElement "capacity_latest"
                 (suggest "capacity_latest"
                    (element_vocabulary Scenario.listings_model)))
  | Ambiguous =>
      Invalid (UnresolvableDimension ["capacity_latest"] ["bookings"] [AmbiguousJoin]
                 [("capacity_latest",
                   suggest "capacity_latest"
                     (reachable_names Scenario.listings_model locals))])
  | RequiresFanout =>
      Invalid (UnresolvableDimension ["capacity_latest"] ["bookings"] [FanoutJoin]
                 [("capacity_latest",
                   suggest "capacity_latest"
                     (reachable_names Scenario.listings_model locals))])
  end.
Proof.
  cbv zeta.
  assert (Hmetrics :
    resolve_metrics Scenario.listings_model ["bookings"] =
    inr [{| metric_name := "bookings"; metric_measures := ["bookings"] |}])
    by reflexivity.
  assert (Hlocals :
    local_data_sources Scenario.listings_model
      [{| metric_name := "bookings"; metric_measures := ["bookings"] |}] =
    [Scenario.bookings_source]) by reflexivity.
  unfold parse_and_validate_query. rewrite Hmetrics, Hlocals.
  cbn [map].
  assert (Hjoin :
    resolve_join Scenario.listings_model [Scenario.bookings_source] "capacity_latest" =
    join_search Scenario.listings_model [Scenario.bookings_source] "capacity_latest")
    by reflexivity.
  rewrite Hjoin.
  now destruct (join_search Scenario.listings_model [Scenario.bookings_source]
                  "capacity_latest").
Qed.

End QueryFacts.

(** *** The validator on the scenarios *)

Section QueryRuns.
Import Query Scenario.



(** The two tests fix the threshold of the ratio matcher between 50 and 57:
    at 49 ['listing'] is suggested for ['is_instan'] too, at 58 the last two
    suggestions for ['booking'] are lost. *)
Lemma ratio_threshold_is_fixed_by_the_tests :
  parse_and_validate_query (MT := ratio_matcher 49)
    bookings_model ["bookings"] ["is_instan"] =
  Invalid (UnknownElement "is_instan" ["is_instant"; "listing"]) /\
  parse_and_validate_query (MT := ratio_matcher 58)
    bookings_model ["booking"] ["is_instant"] =
  Invalid
    (UnknownMetric "booking"
       ["bookings"; "booking_value"; "instant_bookings"; "booking_payments"]).
Proof.
  split; vm_compute; reflexivity.
Qed.

(** Normalised Levenshtein, the other measure that section 4.4 names, does
    not give the list that the test of scenario A observes. *)
Lemma levenshtein_misses_the_observed_list :
  suggest (MT := levenshtein_matcher) "booking" (metric_vocabulary bookings_model)
  = ["bookings"; "bookers"; "booking_value"].
Proof. vm_compute. reflexivity. Qed.

Lemma unknown_metric_suggestions_witness :

  exists name suggestions,
    parse_and_validate_query bookings_model ["bookings"; "booking"] ["is_instant"] =
    Invalid (UnknownMetric name suggestions) /\
    In name ["bookings"; "booking"] /\
    metric_named bookings_model name = None /\
    forall s, In s suggestions ->
      (exists mt, In mt (metrics bookings_model) /\ metric_name mt = s) \/
      (exists ds msr, In ds (data_sources bookings_model) /\ In msr (ds_measures ds) /\
                      create_metric msr = true /\ measure_name msr = s).
Proof.
  apply (unknown_metric_suggestions bookings_model ["bookings"; "booking"] ["is_instant"]).
  exists "booking". split; [cbn; auto|reflexivity].
Defined.

Lemma group_by_failures_are_batched_witness :
  exists reasons suggestions,
    parse_and_validate_query bookings_model ["bookings"] ["is_instan"; "ds"; "dss"] =
    Invalid (UnresolvableDimension ["is_instan"; "dss"] ["bookings"] reasons suggestions) /\
    map fst suggestions = ["is_instan"; "dss"] /\
    error_title (UnresolvableDimension ["is_instan"; "dss"] ["bookings"] reasons suggestions) =
    "Unable To Satisfy Query Error: Dimensions ['is_instan', 'dss'] cannot be resolved for metrics ['bookings']. The invalid dimension may not exist, require an ambiguous join (e.g. a join path that can be satisfied in multiple ways), or require a fanout join.".
Proof.
  apply (group_by_failures_are_batched bookings_model ["bookings"]
           ["is_instan"; "ds"; "dss"]
           [{| metric_name := "bookings"; metric_measures := ["bookings"] |}]).
  - reflexivity.
  - cbn. lia.
Defined.

Lemma scenario_a_unknown_metric_witness :
  (50 <= 50 <= 57)%Z /\
  parse_and_validate_query (MT := ratio_matcher 50)
    bookings_model ["booking"] ["is_instant"] =
  Invalid
    (UnknownMetric "booking"
       ["bookings"; "booking_value"; "instant_bookings"; "booking_payments";
        "max_booking_value"; "min_booking_value"]).
Proof.
  assert (Ht : (50 <= 50 <= 57)%Z) by lia.
  split; [exact Ht|].
  exact (proj1 (scenario_a_unknown_metric 50 Ht)).
Defined.

Lemma scenario_b_unknown_element_witness :
  (50 <= 50 <= 57)%Z /\
  parse_and_validate_query (MT := ratio_matcher 50)
    bookings_model ["bookings"] ["is_instan"] =
  Invalid (UnknownElement "is_instan" ["is_instant"]).
Proof.
  assert (Ht : (50 <= 50 <= 57)%Z) by lia.
  split; [exact Ht|].
  exact (scenario_b_unknown_element 50 Ht).
Defined.

End QueryRuns.

(** ** More about the dbt transformer *)

Section DbtMore.
Import Dbt DbtAdditions.
Context {E : Externals}.

Lemma extend_nothing (ds : PartialDataSource) : extend ds nothing = ds.
Proof. destruct ds. unfold extend. cbn. now rewrite !app_nil_r. Qed.

Lemma extend_assoc (a b c : PartialDataSource) :
  extend (extend a b) c = extend a (extend b c).
Proof. unfold extend. cbn. now rewrite !app_assoc. Qed.

Lemma appends_only_ret {A} (a : A) : appends_only (ret a).
Proof. intros ds. unfold ret. now rewrite extend_nothing. Qed.

Lemma appends_only_lift {A} (r : result A) : appends_only (lift r).
Proof. intros ds. unfold lift. destruct r; [|reflexivity]. now rewrite extend_nothing. Qed.

Lemma appends_only_issue (msg : string) : appends_only (append_issue msg).
Proof. intros ds. unfold append_issue, extend. cbn. now rewrite !app_nil_r. Qed.

Lemma appends_only_measure (m : Measure) : appends_only (append_measure m).
Proof. intros ds. unfold append_measure, extend. cbn. now rewrite !app_nil_r. Qed.

Lemma appends_only_identifier (i : Identifier) : appends_only (append_identifier i).
Proof. intros ds. unfold append_identifier, extend. cbn. now rewrite !app_nil_r. Qed.

Lemma appends_only_dimension (d : Dimension) : appends_only (append_dimension d).
Proof. intros ds. unfold append_dimension, extend. cbn. now rewrite !app_nil_r. Qed.

Lemma appends_only_bind {A B} (m : M A) (k : A -> M B) :
  appends_only m -> (forall a, appends_only (k a)) -> appends_only (bind m k).
Proof.
  intros Hm Hk ds. unfold bind. rewrite (Hm ds).
  destruct (m nothing) as [[a d1]|e]; [|reflexivity].
  rewrite (Hk a (extend ds d1)), (Hk a d1).
  destruct (k a nothing) as [[b d2]|e]; [|reflexivity].
  now rewrite extend_assoc.
Qed.

(** Solves [appends_only] for a method body built from the operations above. *)
Ltac appends :=
  repeat first
    [ apply appends_only_ret
    | apply appends_only_lift
    | apply appends_only_issue
    | apply appends_only_measure
    | apply appends_only_identifier
    | apply appends_only_dimension
    | apply appends_only_bind; [|intros ?]
    | match goal with
      | |- appends_only (if ?b then _ else _) => destruct b
      end ].

Lemma fill_col_appends_only (col : DbtColumn) : appends_only (__fill_col col).
Proof. unfold __fill_col. cbv zeta. appends. Qed.

Lemma fill_cols_appends_only (cols : list (string * DbtColumn)) :
  appends_only (fill_cols cols).
Proof.
  induction cols as [|[key col] cols IH]; cbn [fill_cols]; [apply appends_only_ret|].
  apply appends_only_bind; [apply fill_col_appends_only|intros _; exact IH].
Qed.

(** X1: what a column adds does not depend on what was collected before it:
    on any partial data source [__fill_col] appends the issues and elements
    that it produces on an empty one, keeps the table, and raises exactly
    when it raises on the empty one. *)
Theorem fill_col_is_independent_of_the_state (col : DbtColumn) (ds : PartialDataSource) :
  __fill_col col ds =
  match __fill_col col nothing with
  | Ok (_, added) =>
      Ok (tt, {| sql_table := sql_table ds;
                 issues := (issues ds ++ issues added)%list;
                 measures := (measures ds ++ measures added)%list;
                 identifiers := (identifiers ds ++ identifiers added)%list;
                 dimensions := (dimensions ds ++ dimensions added)%list |})
  | Raise e => Raise e
  end.
Proof.
  rewrite (fill_col_appends_only col ds).
  now destruct (__fill_col col nothing) as [[[] added]|e].
Qed.

(** One statement of a method body that returned: its value, the state after
    it and the equation of its outcome. *)
Ltac next H v s Hv :=
  apply bind_ok in H as (v & s & Hv & H);
  first [ apply lift_ok in Hv as [Hv ->] | idtac ].

(** Every way [__fill_col] can return. *)
Lemma fill_col_cases (col : DbtColumn) (ds ds' : PartialDataSource) :
  __fill_col col ds = Ok (tt, ds') ->
  ds' = ds
  \/ (exists i, append_identifier i ds = Ok (tt, ds'))
  \/ (exists d, append_dimension d ds = Ok (tt, ds') /\
                dimension_description d = dimension_name d)
  \/ (exists m kind, append_measure m ds = Ok (tt, ds') /\
                     measure_agg m = AggKind kind)
  \/ (exists msg, append_issue msg ds = Ok (tt, ds'))
  \/ (exists msg1 msg2 s, append_issue msg1 ds = Ok (tt, s) /\
                          append_issue msg2 s = Ok (tt, ds')).
Proof.
  intros H. unfold __fill_col in H. cbv zeta in H.
  destruct (is_none (meta_get (col_meta col) "mf")).
  { injection H as <-. now left. }
  right.
  next H mf_type s0 Hty. next H mf_type' s1 Hty'.
  rewrite Hty in Hty'. injection Hty' as <-.
  next H u s2 Hissue.
  next H name s3 Hname. next H expr s4 Hexpr. next H type_name s5 Htn.
  destruct (is_none mf_type) eqn:Hnone.
  { destruct mf_type; try discriminate Hnone. cbn [py_eq_str] in H.
    do 4 right. destruct u. eauto. }
  unfold ret in Hissue. injection Hissue as _ <-.
  destruct (py_eq_str mf_type "identifier").
  { destruct (is_none type_name).
    - do 3 right. left. eauto.
    - next H upper s6 Hup. next H ty s7 Hfor. left. eauto. }
  destruct (py_eq_str mf_type "dimension").
  { destruct (is_none type_name).
    - do 3 right. left. eauto.
    - next H type_params_dict s6 Htpd. next H type_params s7 Htp.
      assert (s7 = ds) as ->.
      { destruct (is_none type_params_dict).
        - unfold ret in Htp. now injection Htp as _ <-.
        - next Htp tp s8 Hparse. unfold ret in Htp. now injection Htp as _ <-. }
      next H upper s8 Hup. next H ty s9 Hfor.
      right. left. eexists. split; [exact H|reflexivity]. }
  destruct (py_eq_str mf_type "measure").
  { next H agg s6 Hagg. destruct (is_none agg).
    - do 3 right. left. eauto.
    - next H kind s7 Hkind. do 2 right. left.
      eexists. exists kind. split; [exact H|reflexivity]. }
  do 3 right. left. eauto.
Qed.

(** X2: a column adds exactly one of: nothing, one identifier, one
    dimension, one measure, one issue, or two issues.  It never adds an
    element together with an issue, and never more than one element. *)
Theorem fill_col_adds_one_thing (col : DbtColumn) (ds ds' : PartialDataSource) :
  __fill_col col ds = Ok (tt, ds') ->
  ds' = ds
  \/ (exists i, append_identifier i ds = Ok (tt, ds'))
  \/ (exists d, append_dimension d ds = Ok (tt, ds'))
  \/ (exists m, append_measure m ds = Ok (tt, ds'))
  \/ (exists msg, append_issue msg ds = Ok (tt, ds'))
  \/ (exists msg1 msg2 s, append_issue msg1 ds = Ok (tt, s) /\
                          append_issue msg2 s = Ok (tt, ds')).
Proof.
  intros H.
  destruct (fill_col_cases col ds ds' H)
    as [Hsame|[[i Hi]|[(d & Hd & _)|[(m & kind & Hm & _)|[Hone|Htwo]]]]]; eauto 7.
Qed.

Lemma py_eq_str_other (v : PyVal) (s : string) : v <> VStr s -> py_eq_str v s = false.
Proof.
  destruct v; try reflexivity. cbn [py_eq_str]. intros H.
  apply String.eqb_neq. congruence.
Qed.

Lemma is_none_other (v : PyVal) : v <> VNone -> is_none v = false.
Proof. destruct v; intros H; try reflexivity. now elim H. Qed.

Lemma meta_get_absent_or_none (d : dict) (k : string) :
  dict_get d k = None \/ dict_get d k = Some VNone -> meta_get d k = VNone.
Proof. unfold meta_get. now intros [->| ->]. Qed.

(** X3: an identifier or dimension column without [meta.mf.type] (no key,
    or the key bound to [None]) gets exactly one error, ['meta.mf.type not
    found for col: <column>'], and no element. *)
Theorem fill_col_without_type
    (col : DbtColumn) (mf : dict) (kind : string) (ds : PartialDataSource) :
  dict_get (col_meta col) "mf" = Some (VDict mf) ->
  dict_get mf "mf_type" = Some (VStr kind) ->
  kind = "identifier" \/ kind = "dimension" ->
  dict_get mf "type" = None \/ dict_get mf "type" = Some VNone ->
  __fill_col col ds =
  Ok (tt, {| sql_table := sql_table ds;
             issues := (issues ds ++
               [ValidationError ("meta.mf.type not found for col: " ++ col_name col)])%list;
             measures := measures ds;
             identifiers := identifiers ds;
             dimensions := dimensions ds |}).
Proof.
  intros Hmf Hty Hkind Htype. apply meta_get_absent_or_none in Htype.
  unfold meta_get in Htype.
  unfold __fill_col, meta_get. rewrite Hmf. cbn [is_none].
  unfold bind, lift, py_get. rewrite Hty.
  destruct (dict_get mf "type") as [t|]; subst;
    destruct Hkind as [-> | ->]; reflexivity.
Qed.

(** X4: a measure column without [meta.mf.agg] (no key, or the key bound to
    [None]) gets exactly one error, ['meta.mf.agg not found for col:
    <column>'], and no measure. *)
Theorem fill_col_without_agg (col : DbtColumn) (mf : dict) (ds : PartialDataSource) :
  dict_get (col_meta col) "mf" = Some (VDict mf) ->
  dict_get mf "mf_type" = Some (VStr "measure") ->
  dict_get mf "agg" = None \/ dict_get mf "agg" = Some VNone ->
  __fill_col col ds =
  Ok (tt, {| sql_table := sql_table ds;
             issues := (issues ds ++
               [ValidationError ("meta.mf.agg not found for col: " ++ col_name col)])%list;
             measures := measures ds;
             identifiers := identifiers ds;
             dimensions := dimensions ds |}).
Proof.
  intros Hmf Hty Hagg. apply meta_get_absent_or_none in Hagg.
  unfold meta_get in Hagg.
  unfold __fill_col, meta_get. rewrite Hmf. cbn [is_none].
  unfold bind, lift, py_get. rewrite Hty.
  destruct (dict_get mf "agg") as [a|]; subst; reflexivity.
Qed.

(** X5: a column whose [meta.mf.mf_type] is given but is none of
    ['identifier'], ['dimension'], ['measure'] gets exactly one error that
    quotes the value, and no element. *)
Theorem fill_col_with_unknown_mf_type
    (col : DbtColumn) (mf : dict) (mf_type : PyVal) (ds : PartialDataSource) :
  dict_get (col_meta col) "mf" = Some (VDict mf) ->
  dict_get mf "mf_type" = Some mf_type ->
  mf_type <> VNone ->
  mf_type <> VStr "identifier" ->
  mf_type <> VStr "dimension" ->
  mf_type <> VStr "measure" ->
  __fill_col col ds =
  Ok (tt, {| sql_table := sql_table ds;
             issues := (issues ds ++
               [ValidationError ("invalid meta.mf.mf_type for col: " ++ col_name col
                                 ++ ", value: " ++ py_str mf_type)])%list;
             measures := measures ds;
             identifiers := identifiers ds;
             dimensions := dimensions ds |}).
Proof.
  intros Hmf Hty Hnone Hid Hdim Hmsr.
  unfold __fill_col, meta_get. rewrite Hmf. cbn [is_none].
  unfold bind, lift, py_get. rewrite Hty.
  rewrite (is_none_other _ Hnone).
  now rewrite (py_eq_str_other _ _ Hid), (py_eq_str_other _ _ Hdim),
    (py_eq_str_other _ _ Hmsr).
Qed.

(** X6: a column whose [meta.mf] is neither [None] nor a mapping is not
    reported as an issue: [__fill_col] raises [AttributeError]. *)
Theorem fill_col_raises_on_scalar_mf (col : DbtColumn) (mf : PyVal) (ds : PartialDataSource) :
  dict_get (col_meta col) "mf" = Some mf ->
  mf <> VNone ->
  (forall d, mf <> VDict d) ->
  __fill_col col ds = Raise AttributeError.
Proof.
  intros Hmf Hnone Hdict.
  unfold __fill_col, meta_get. rewrite Hmf. rewrite (is_none_other _ Hnone).
  unfold bind, lift, py_get.
  destruct mf; try reflexivity. now elim (Hdict d).
Qed.

(** X7: a model whose [meta.mf] is neither [None] nor a mapping makes
    [__to_data_source] raise [AttributeError], whatever its columns are. *)
Theorem to_data_source_raises_on_scalar_mf (dbt_model : DbtModel) (mf : PyVal) :
  dict_get (node_meta dbt_model) "mf" = Some mf ->
  mf <> VNone ->
  (forall d, mf <> VDict d) ->
  __to_data_source dbt_model = Raise AttributeError.
Proof.
  intros Hmf Hnone Hdict.
  unfold __to_data_source, __fill_dbt_model_meta, meta_get. rewrite Hmf.
  rewrite (is_none_other _ Hnone).
  unfold bind, lift, get_sql_table, py_get.
  destruct mf; try reflexivity. now elim (Hdict d).
Qed.

(** X8: a model whose [meta.mf] is a mapping without [measures] (no key, or
    the key bound to [None]) gets exactly one error,
    ['model.meta.mf.measures not found in model: <model>'], and no measure;
    its table is [meta.mf.sql_table] when that key is there and stays as it
    was otherwise. *)
Theorem fill_dbt_model_meta_without_measures
    (dbt_model : DbtModel) (mf : dict) (ds : PartialDataSource) :
  dict_get (node_meta dbt_model) "mf" = Some (VDict mf) ->
  dict_get mf "measures" = None \/ dict_get mf "measures" = Some VNone ->
  __fill_dbt_model_meta dbt_model ds =
  Ok (tt, {| sql_table := match dict_get mf "sql_table" with
                          | Some v => v
                          | None => sql_table ds
                          end;
             issues := (issues ds ++
               [ValidationError ("model.meta.mf.measures not found in model: "
                                 ++ node_name dbt_model)])%list;
             measures := measures ds;
             identifiers := identifiers ds;
             dimensions := dimensions ds |}).
Proof.
  intros Hmf Hmeasures. apply meta_get_absent_or_none in Hmeasures.
  unfold meta_get in Hmeasures.
  unfold __fill_dbt_model_meta, meta_get. rewrite Hmf. cbn [is_none].
  unfold bind, lift, get_sql_table, set_sql_table, py_get.
  destruct (dict_get mf "measures") as [v|]; subst; reflexivity.
Qed.

(** X9: the type of an identifier or dimension is looked up by its
    upper-cased name, so two columns that differ only in the letter case of
    [meta.mf.type] give the same outcome. *)
Theorem fill_col_type_is_case_insensitive
    (col1 col2 : DbtColumn) (mf1 mf2 : dict) (type1 type2 : string)
    (ds : PartialDataSource) :
  col_name col1 = col_name col2 ->
  col_description col1 = col_description col2 ->
  dict_get (col_meta col1) "mf" = Some (VDict mf1) ->
  dict_get (col_meta col2) "mf" = Some (VDict mf2) ->
  (forall k, k <> "type" -> dict_get mf1 k = dict_get mf2 k) ->
  dict_get mf1 "type" = Some (VStr type1) ->
  dict_get mf2 "type" = Some (VStr type2) ->
  str_upper type1 = str_upper type2 ->
  __fill_col col1 ds = __fill_col col2 ds.
Proof.
  intros Hname Hdescr Hmf1 Hmf2 Hsame Htype1 Htype2 Hupper.
  unfold __fill_col, meta_get. rewrite Hmf1, Hmf2. cbn [is_none].
  unfold py_get. rewrite Htype1, Htype2.
  rewrite !(Hsame "mf_type"), !(Hsame "name"), !(Hsame "expr"),
    !(Hsame "type_params"), !(Hsame "agg") by discriminate.
  rewrite Hname, Hdescr. unfold bind, lift.
  cbn beta iota delta [py_upper is_none]. now rewrite Hupper.
Qed.

(** *** Whole data sources *)

Lemma fill_measures_keeps_the_rest (entries : list PyVal) :
  forall ds ds',
    fill_measures entries ds = Ok (tt, ds') ->
    sql_table ds' = sql_table ds /\ issues ds' = issues ds /\
    identifiers ds' = identifiers ds /\ dimensions ds' = dimensions ds.
Proof.
  induction entries as [|entry entries IH]; intros ds ds' H.
  - now injection H as <-.
  - cbn [fill_measures] in H.
    next H m s0 Hentry. next H u s1 Happend.
    unfold append_measure in Happend. injection Happend as _ <-.
    apply IH in H. exact H.
Qed.

Lemma fill_dbt_model_meta_keeps_elements
    (dbt_model : DbtModel) (ds ds' : PartialDataSource) :
  __fill_dbt_model_meta dbt_model ds = Ok (tt, ds') ->
  identifiers ds' = identifiers ds /\ dimensions ds' = dimensions ds.
Proof.
  intros H. unfold __fill_dbt_model_meta in H. cbv zeta in H.
  destruct (is_none (meta_get (node_meta dbt_model) "mf")).
  { now injection H as <-. }
  next H old s0 Hold. unfold get_sql_table in Hold. injection Hold as _ <-.
  next H tbl s1 Htbl. next H u s2 Hset.
  unfold set_sql_table in Hset. injection Hset as _ <-.
  next H msrs s3 Hmsrs.
  destruct (is_none msrs).
  - unfold append_issue in H. now injection H as <-.
  - next H entries s4 Hiter.
    apply fill_measures_keeps_the_rest in H as (_ & _ & Hids & Hdims).
    now split.
Qed.

Lemma fill_dbt_model_meta_table (dbt_model : DbtModel) (ds ds' : PartialDataSource) :
  __fill_dbt_model_meta dbt_model ds = Ok (tt, ds') ->
  sql_table ds' =
  match meta_get (node_meta dbt_model) "mf" with
  | VDict mf =>
      match dict_get mf "sql_table" with
      | Some v => v
      | None => sql_table ds
      end
  | _ => sql_table ds
  end.
Proof.
  intros H. unfold __fill_dbt_model_meta in H. cbv zeta in H.
  destruct (meta_get (node_meta dbt_model) "mf") as [| | | | |mf] eqn:Hmf;
    cbn [is_none] in H;
    try (next H old s0 Hold; next H tbl s1 Htbl; discriminate Htbl).
  { now injection H as <-. }
  next H old s0 Hold. unfold get_sql_table in Hold. injection Hold as <- <-.
  next H tbl s1 Htbl. unfold py_get in Htbl. injection Htbl as <-.
  next H u s2 Hset. unfold set_sql_table in Hset. injection Hset as _ <-.
  next H msrs s3 Hmsrs.
  destruct (is_none msrs).
  - unfold append_issue in H. now injection H as <-.
  - next H entries s4 Hiter.
    now apply fill_measures_keeps_the_rest in H as (-> & _).
Qed.

Lemma appends_only_table {A} (m : M A) (ds ds' : PartialDataSource) (a : A) :
  appends_only m -> m ds = Ok (a, ds') -> sql_table ds' = sql_table ds.
Proof.
  intros Hm H. rewrite (Hm ds) in H.
  destruct (m nothing) as [[a' added]|]; [|discriminate].
  now injection H as _ <-.
Qed.

Lemma to_data_source_ok (dbt_model : DbtModel) (data_source : DataSource)
    (model_issues : list ValidationIssue) :
  __to_data_source dbt_model = Ok (data_source, model_issues) ->
  exists from_model ds,
    __fill_dbt_model_meta dbt_model
      {| sql_table := VStr ("db.schema." ++ node_name dbt_model);
         issues := []; measures := []; identifiers := []; dimensions := [] |}
    = Ok (tt, from_model) /\
    fill_cols (node_columns dbt_model) from_model = Ok (tt, ds) /\
    data_source =
    {| ds_name := node_name dbt_model;
       ds_sql_table := sql_table ds;
       ds_description := str_or (node_description dbt_model) (node_name dbt_model);
       ds_identifiers := identifiers ds;
       ds_measures := measures ds;
       ds_dimensions := dimensions ds |} /\
    model_issues = issues ds.
Proof.
  intros H. unfold __to_data_source in H. cbv zeta in H.
  match type of H with
  | match ?run with _ => _ end = _ => destruct run as [[u ds]|] eqn:Hrun
  end; [|discriminate].
  injection H as <- <-.
  next Hrun v from_model Hmeta. destruct v, u.
  now exists from_model, ds.
Qed.

Lemma fill_cols_keeps_dimension_descriptions (cols : list (string * DbtColumn)) :
  forall ds ds',
    fill_cols cols ds = Ok (tt, ds') ->
    Forall (fun d => dimension_description d = dimension_name d) (dimensions ds) ->
    Forall (fun d => dimension_description d = dimension_name d) (dimensions ds').
Proof.
  induction cols as [|[key col] cols IH]; intros ds ds' H Hds.
  - now injection H as <-.
  - cbn [fill_cols] in H. next H u s Hcol. destruct u.
    apply (IH s ds' H). clear IH H.
    destruct (fill_col_cases col ds s Hcol)
      as [->|[[i Hi]|[(d & Hd & Hdescr)|[(m & kind & Hm & _)|[[msg Hone]|Htwo]]]]].
    + exact Hds.
    + unfold append_identifier in Hi. now injection Hi as <-.
    + unfold append_dimension in Hd. injection Hd as <-. cbn [dimensions].
      apply Forall_app. split; [exact Hds|]. now constructor.
    + unfold append_measure in Hm. now injection Hm as <-.
    + unfold append_issue in Hone. now injection Hone as <-.
    + destruct Htwo as (msg1 & msg2 & s' & H1 & H2).
      unfold append_issue in H1, H2. injection H1 as <-. now injection H2 as <-.
Qed.

(** X10: the description of a column never reaches a dimension: every
    dimension of a data source that [__to_data_source] returns has its own
    name as description. *)
Theorem to_data_source_dimensions_are_described_by_name
    (dbt_model : DbtModel) (data_source : DataSource)
    (model_issues : list ValidationIssue) :
  __to_data_source dbt_model = Ok (data_source, model_issues) ->
  Forall (fun d => dimension_description d = dimension_name d)
         (ds_dimensions data_source).
Proof.
  intros H.
  apply to_data_source_ok in H as (from_model & ds & Hmeta & Hcols & -> & _).
  cbn [ds_dimensions].
  apply (fill_cols_keeps_dimension_descriptions _ _ _ Hcols).
  apply fill_dbt_model_meta_keeps_elements in Hmeta as [_ Hdims].
  rewrite Hdims. constructor.
Qed.

(** X11: a data source that [__to_data_source] returns has the name of the
    model, the description of the model or, when that is empty, its name,
    and as table [meta.mf.sql_table] when the key is there and
    ['db.schema.<model>'] otherwise; no column changes the table. *)
Theorem to_data_source_header
    (dbt_model : DbtModel) (data_source : DataSource)
    (model_issues : list ValidationIssue) :
  __to_data_source dbt_model = Ok (data_source, model_issues) ->
  ds_name data_source = node_name dbt_model /\
  ds_description data_source =
    (if String.eqb (node_description dbt_model) ""
     then node_name dbt_model else node_description dbt_model) /\
  ds_sql_table data_source =
    match dict_get (node_meta dbt_model) "mf" with
    | Some (VDict mf) =>
        match dict_get mf "sql_table" with
        | Some v => v
        | None => VStr ("db.schema." ++ node_name dbt_model)
        end
    | _ => VStr ("db.schema." ++ node_name dbt_model)
    end.
Proof.
  intros H.
  apply to_data_source_ok in H as (from_model & ds & Hmeta & Hcols & -> & _).
  cbn [ds_name ds_description ds_sql_table].
  split; [reflexivity|]. split.
  - now destruct (node_description dbt_model).
  - rewrite (appends_only_table _ _ _ _ (fill_cols_appends_only _) Hcols).
    rewrite (fill_dbt_model_meta_table _ _ _ Hmeta). cbn [sql_table].
    unfold meta_get.
    destruct (dict_get (node_meta dbt_model) "mf") as [[]|]; reflexivity.
Qed.

Lemma fill_cols_additions (cols : list (string * DbtColumn)) :
  forall ds ds',
    fill_cols cols ds = Ok (tt, ds') ->
    exists added,
      Forall2 (fun kc a => __fill_col (snd kc) nothing = Ok (tt, a)) cols added /\
      issues ds' = (issues ds ++ concat (map issues added))%list /\
      measures ds' = (measures ds ++ concat (map measures added))%list /\
      identifiers ds' = (identifiers ds ++ concat (map identifiers added))%list /\
      dimensions ds' = (dimensions ds ++ concat (map dimensions added))%list.
Proof.
  induction cols as [|[key col] cols IH]; intros ds ds' H.
  - injection H as <-. exists []. rewrite !app_nil_r. repeat split. constructor.
  - cbn [fill_cols] in H. next H u s Hcol. destruct u.
    rewrite (fill_col_appends_only col ds) in Hcol.
    destruct (__fill_col col nothing) as [[[] a]|] eqn:Hnothing; [|discriminate].
    injection Hcol as <-.
    apply IH in H as (added & Hall & His & Hms & Hids & Hdims).
    exists (a :: added). cbn [map concat extend issues measures identifiers dimensions] in *.
    rewrite His, Hms, Hids, Hdims, <- !app_assoc.
    repeat split. now constructor.
Qed.

(** X12: a data source is put together column by column: its issues are
    those of the model's [meta] followed by those of each column in column
    order, its measures are those of the model's [meta] followed by those of
    the columns, and its identifiers and dimensions are those of the
    columns, each column contributing what [__fill_col] gives for it alone. *)
Theorem to_data_source_is_built_column_by_column
    (dbt_model : DbtModel) (data_source : DataSource)
    (model_issues : list ValidationIssue) :
  __to_data_source dbt_model = Ok (data_source, model_issues) ->
  exists from_model added,
    __fill_dbt_model_meta dbt_model
      {| sql_table := VStr ("db.schema." ++ node_name dbt_model);
         issues := []; measures := []; identifiers := []; dimensions := [] |}
    = Ok (tt, from_model) /\
    Forall2 (fun kc a => __fill_col (snd kc) nothing = Ok (tt, a))
            (node_columns dbt_model) added /\
    model_issues = (issues from_model ++ concat (map issues added))%list /\
    ds_measures data_source = (measures from_model ++ concat (map measures added))%list /\
    ds_identifiers data_source = concat (map identifiers added) /\
    ds_dimensions data_source = concat (map dimensions added).
Proof.
  intros H.
  apply to_data_source_ok in H as (from_model & ds & Hmeta & Hcols & -> & ->).
  apply fill_cols_additions in Hcols as (added & Hall & His & Hms & Hids & Hdims).
  exists from_model, added.
  cbn [ds_measures ds_identifiers ds_dimensions].
  destruct (fill_dbt_model_meta_keeps_elements _ _ _ Hmeta) as [Hi Hd].
  cbn [identifiers dimensions] in Hi, Hd. rewrite Hi in Hids. rewrite Hd in Hdims.
  repeat split; assumption.
Qed.

Lemma measure_of_entry_fields (entry : PyVal) (msr : Measure) :
  measure_of_entry entry = Ok msr ->
  exists d agg,
    entry = VDict d /\
    dict_get d "name" = Some (measure_name msr) /\
    dict_get d "agg" = Some (VStr agg) /\
    measure_agg msr = AggName (str_upper agg) /\
    measure_description msr =
      match dict_get d "description" with
      | Some x => x
      | None => measure_name msr
      end.
Proof.
  intros H. destruct entry as [| | | | |d]; try discriminate H.
  unfold measure_of_entry, py_getitem, py_get in H.
  destruct (dict_get d "name") as [name|] eqn:Hname; [|discriminate].
  cbn [rbind] in H.
  destruct (dict_get d "agg") as [agg|] eqn:Hagg; [|discriminate].
  cbn [rbind] in H.
  destruct agg as [| | |agg| |]; try discriminate H. cbn [py_upper rbind] in H.
  injection H as <-. exists d, agg. cbn. repeat split; assumption.
Qed.

(** X13: when [meta.mf.measures] of a model can be iterated and
    [__fill_dbt_model_meta] returns, it has added one measure per entry, in
    the order of the entries, each with the name of its entry, the
    upper-cased [agg] of its entry and the entry's [description] or, without
    one, its name; it has added no issue, identifier or dimension. *)
Theorem fill_dbt_model_meta_measures
    (dbt_model : DbtModel) (mf : dict) (v : PyVal) (entries : list PyVal)
    (ds ds' : PartialDataSource) :
  dict_get (node_meta dbt_model) "mf" = Some (VDict mf) ->
  dict_get mf "measures" = Some v ->
  py_iter v = Ok entries ->
  __fill_dbt_model_meta dbt_model ds = Ok (tt, ds') ->
  issues ds' = issues ds /\
  identifiers ds' = identifiers ds /\
  dimensions ds' = dimensions ds /\
  exists built,
    measures ds' = (measures ds ++ built)%list /\
    Forall2 (fun entry msr =>
               exists d agg,
                 entry = VDict d /\
                 dict_get d "name" = Some (measure_name msr) /\
                 dict_get d "agg" = Some (VStr agg) /\
                 measure_agg msr = AggName (str_upper agg) /\
                 measure_description msr =
                   match dict_get d "description" with
                   | Some x => x
                   | None => measure_name msr
                   end)
            entries built.
Proof.
  intros Hmf Hmeasures Hiter H.
  unfold __fill_dbt_model_meta, meta_get in H. rewrite Hmf in H.
  cbn [is_none] in H.
  unfold bind, lift, get_sql_table, set_sql_table, py_get in H.
  rewrite Hmeasures in H.
  destruct (is_none v) eqn:Hnone.
  { destruct v; try discriminate Hnone. discriminate Hiter. }
  rewrite Hiter in H.
  destruct (fill_measures_keeps_the_rest _ _ _ H) as (_ & His & Hids & Hdims).
  apply fill_measures_appends in H as (built & Hms & Hall).
  repeat split; try assumption.
  exists built. split; [exact Hms|].
  clear - Hall.
  induction Hall as [|entry msr entries built Hentry _ IH]; constructor; [|exact IH].
  now apply measure_of_entry_fields.
Qed.

Lemma fill_measures_raises (good rest : list PyVal) (bad : PyVal) (e : PyExn) :
  Forall (fun entry => exists msr, measure_of_entry entry = Ok msr) good ->
  measure_of_entry bad = Raise e ->
  forall ds, fill_measures (good ++ bad :: rest) ds = Raise e.
Proof.
  intros Hgood Hbad. induction Hgood as [|entry good [msr Hentry] _ IH]; intros ds.
  - cbn [app fill_measures]. unfold bind, lift. now rewrite Hbad.
  - cbn [app fill_measures]. unfold bind, lift. rewrite Hentry.
    unfold append_measure. apply IH.
Qed.

(** X14: a measure entry of [meta.mf.measures] that lacks [name], or has a
    name and lacks [agg], is not reported as an issue: after well-formed
    entries, [__fill_dbt_model_meta] raises [KeyError] for the missing key
    and nothing of the model is kept. *)
Theorem fill_dbt_model_meta_raises_on_incomplete_entry
    (dbt_model : DbtModel) (mf d : dict) (good rest : list PyVal) (key : string)
    (ds : PartialDataSource) :
  dict_get (node_meta dbt_model) "mf" = Some (VDict mf) ->
  dict_get mf "measures" = Some (VList (good ++ VDict d :: rest)) ->
  Forall (fun entry => exists msr, measure_of_entry entry = Ok msr) good ->
  (key = "name" /\ dict_get d "name" = None) \/
  (key = "agg" /\ dict_get d "name" <> None /\ dict_get d "agg" = None) ->
  __fill_dbt_model_meta dbt_model ds = Raise (KeyError key).
Proof.
  intros Hmf Hmeasures Hgood Hkey.
  unfold __fill_dbt_model_meta, meta_get. rewrite Hmf. cbn [is_none].
  unfold bind, lift, get_sql_table, set_sql_table, py_get.
  rewrite Hmeasures. cbn [is_none py_iter].
  apply fill_measures_raises; [exact Hgood|].
  unfold measure_of_entry, py_getitem.
  destruct Hkey as [[-> Hname]|(-> & Hname & Hagg)].
  - now rewrite Hname.
  - destruct (dict_get d "name"); [|now elim Hname].
    cbn [rbind]. now rewrite Hagg.
Qed.

(** *** Whole manifests *)

Lemma build_loop_app (l1 l2 : list DbtModel) :
  forall acc_issues acc_sources,
    build_loop (l1 ++ l2) acc_issues acc_sources =
    match build_loop l1 acc_issues acc_sources with
    | Ok (i, s) => build_loop l2 i s
    | Raise e => Raise e
    end.
Proof.
  induction l1 as [|m l1 IH]; intros acc_issues acc_sources; [reflexivity|].
  cbn [app build_loop].
  destruct (is_none (meta_get (node_meta m) "mf")); [apply IH|].
  destruct (__to_data_source m) as [[data_source model_issues]|e]; [apply IH|reflexivity].
Qed.

Lemma build_loop_accumulates (l : list DbtModel) :
  forall acc_issues acc_sources,
    build_loop l acc_issues acc_sources =
    match build_loop l [] [] with
    | Ok (i, s) => Ok ((acc_issues ++ i)%list, (acc_sources ++ s)%list)
    | Raise e => Raise e
    end.
Proof.
  induction l as [|m l IH]; intros acc_issues acc_sources.
  - cbn [build_loop]. now rewrite !app_nil_r.
  - cbn [build_loop].
    destruct (is_none (meta_get (node_meta m) "mf")); [apply IH|].
    destruct (__to_data_source m) as [[data_source model_issues]|e]; [|reflexivity].
    rewrite (IH (acc_issues ++ model_issues)%list (acc_sources ++ [data_source])%list).
    rewrite (IH ([] ++ model_issues)%list ([] ++ [data_source])%list).
    destruct (build_loop l [] []) as [[i s]|e]; [|reflexivity].
    cbn [app]. now rewrite <- !app_assoc.
Qed.

(** X15: a node whose key does not start with ['model.'] (a test, a seed, a
    source) is ignored whatever its [meta] holds: the build of a manifest
    with the node gives what the build without it gives. *)
Theorem build_ignores_nodes_that_are_not_models
    (key : string) (m : DbtModel) (before after : list (string * DbtModel)) :
  String.prefix "model." key = false ->
  build_user_configured_model {| nodes := before ++ (key, m) :: after |} =
  build_user_configured_model {| nodes := before ++ after |}.
Proof.
  intros Hkey. unfold build_user_configured_model.
  rewrite !dbt_models_app.
  replace (__dbt_models {| nodes := (key, m) :: after |})
    with (__dbt_models {| nodes := after |}); [reflexivity|].
  unfold __dbt_models. cbn [nodes filter fst]. now rewrite Hkey.
Qed.

Lemma to_data_source_name (m : DbtModel) (data_source : DataSource)
    (model_issues : list ValidationIssue) :
  __to_data_source m = Ok (data_source, model_issues) ->
  ds_name data_source = node_name m.
Proof.
  intros H. now apply to_data_source_ok in H as (from_model & ds & _ & _ & -> & _).
Qed.

Lemma build_loop_names (models : list DbtModel) :
  forall acc_issues acc_sources i s,
    build_loop models acc_issues acc_sources = Ok (i, s) ->
    map ds_name s =
    (map ds_name acc_sources ++
     map node_name
       (filter (fun m => negb (is_none (meta_get (node_meta m) "mf"))) models))%list.
Proof.
  induction models as [|m models IH]; intros acc_issues acc_sources i s H.
  - injection H as _ <-. cbn. now rewrite app_nil_r.
  - cbn [build_loop filter] in *.
    destruct (is_none (meta_get (node_meta m) "mf")); cbn [negb]; [now apply IH in H|].
    destruct (__to_data_source m) as [[data_source model_issues]|e] eqn:Hm; [|discriminate].
    apply IH in H. rewrite H, map_app. cbn [map].
    rewrite (to_data_source_name _ _ _ Hm). now rewrite <- app_assoc.
Qed.

Lemma mf_models_of_nodes (l : list (string * DbtModel)) :
  filter (fun m => negb (is_none (meta_get (node_meta m) "mf")))
         (map snd (filter (fun kv => String.prefix "model." (fst kv)) l)) =
  map snd (filter is_mf_model l).
Proof.
  induction l as [|[key m] l IH]; [reflexivity|].
  cbn [filter map fst snd]. unfold is_mf_model at 1. cbn [fst snd].
  destruct (String.prefix "model." key); cbn [andb map filter snd]; [|exact IH].
  destruct (is_none (meta_get (node_meta m) "mf")); cbn [negb map snd];
    now rewrite IH.
Qed.

(** X16: when [build_user_configured_model] returns, the model has one data
    source for every node that is a model with an [mf] entry, in the order
    of the manifest and under the name of its node, and it has no metric. *)
Theorem build_has_one_data_source_per_mf_model
    (manifest : DbtManifest) (r : ModelBuildResult) :
  build_user_configured_model manifest = Ok r ->
  map ds_name (data_sources (model r)) =
    map (fun kv => node_name (snd kv)) (filter is_mf_model (nodes manifest)) /\
  metrics (model r) = [].
Proof.
  intros H. unfold build_user_configured_model in H.
  destruct (build_loop (__dbt_models manifest) [] []) as [[i s]|e] eqn:Hloop;
    [|discriminate].
  injection H as <-. cbn [model data_sources metrics]. split; [|reflexivity].
  apply build_loop_names in Hloop. rewrite Hloop. cbn [map app].
  unfold __dbt_models. now rewrite mf_models_of_nodes, map_map.
Qed.

(** X17: the build stops at the first model that raises: when the nodes
    before a model build and [__to_data_source] raises on that model, the
    build of the whole manifest raises the same exception, and the issues
    and data sources collected before are not returned. *)
Theorem build_raises_with_the_first_failing_model
    (key : string) (m : DbtModel) (mf : PyVal) (before after : list (string * DbtModel))
    (r : ModelBuildResult) (e : PyExn) :
  String.prefix "model." key = true ->
  dict_get (node_meta m) "mf" = Some mf ->
  mf <> VNone ->
  build_user_configured_model {| nodes := before |} = Ok r ->
  __to_data_source m = Raise e ->
  build_user_configured_model {| nodes := before ++ (key, m) :: after |} = Raise e.
Proof.
  intros Hkey Hmf Hnone Hbefore Hraise.
  unfold build_user_configured_model in *.
  rewrite dbt_models_app, build_loop_app.
  destruct (build_loop (__dbt_models {| nodes := before |}) [] []) as [[i s]|];
    [|discriminate].
  unfold __dbt_models. cbn [nodes filter fst]. rewrite Hkey.
  cbn [map snd build_loop]. unfold meta_get. rewrite Hmf.
  rewrite (is_none_other _ Hnone). now rewrite Hraise.
Qed.

(** X18: building two manifests one after the other is building their
    concatenation: when both builds return, the build of the concatenated
    manifest returns the data sources of the first followed by those of the
    second, and its issues are made from the issues of the first followed by
    those of the second. *)
Theorem build_of_concatenated_manifests
    (nodes1 nodes2 : list (string * DbtModel)) (r1 r2 : ModelBuildResult) :
  build_user_configured_model {| nodes := nodes1 |} = Ok r1 ->
  build_user_configured_model {| nodes := nodes2 |} = Ok r2 ->
  exists r issues1 issues2,
    build_user_configured_model {| nodes := nodes1 ++ nodes2 |} = Ok r /\
    data_sources (model r) = (data_sources (model r1) ++ data_sources (model r2))%list /\
    build_issues r1 = from_issues_sequence issues1 /\
    build_issues r2 = from_issues_sequence issues2 /\
    build_issues r = from_issues_sequence (issues1 ++ issues2).
Proof.
  unfold build_user_configured_model. intros H1 H2.
  rewrite dbt_models_app, build_loop_app.
  destruct (build_loop (__dbt_models {| nodes := nodes1 |}) [] []) as [[i1 s1]|];
    [|discriminate].
  rewrite build_loop_accumulates.
  destruct (build_loop (__dbt_models {| nodes := nodes2 |}) [] []) as [[i2 s2]|];
    [|discriminate].
  injection H1 as <-. injection H2 as <-.
  eexists. exists i1, i2. repeat split.
Qed.

(** X19: [parse_dbt_project_to_model] raises [e] exactly when the first of
    its four steps that raises, raises [e]: loading the manifest, building
    the dbt model, parsing the [metrics] directory, transforming the model.
    A failure of a later step discards what the transformer had built, its
    issues included. *)
Theorem parse_dbt_project_raises {C : Collaborators}
    (directory : string) (profile target : option string) (e : PyExn) :
  parse_dbt_project_to_model directory profile target = Raise e <->
  get_dbt_project_manifest directory profile target = Raise e \/
  exists manifest,
    get_dbt_project_manifest directory profile target = Ok manifest /\
    (build_user_configured_model manifest = Raise e \/
     exists dbt_build_result,
       build_user_configured_model manifest = Ok dbt_build_result /\
       (parse_directory_of_yaml_files_to_model (joinpath directory "metrics") = Raise e \/
        exists mf_build_result,
          parse_directory_of_yaml_files_to_model (joinpath directory "metrics")
            = Ok mf_build_result /\
          ModelTransformer_transform
            {| data_sources := data_sources (model dbt_build_result);
               metrics := metrics (model mf_build_result) |} = Raise e)).
Proof.
  unfold parse_dbt_project_to_model, set_metrics. split.
  - intros H.
    destruct (get_dbt_project_manifest directory profile target)
      as [manifest|e1] eqn:Hmanifest; cbn [rbind] in H; [|left; congruence].
    right. exists manifest. split; [reflexivity|].
    destruct (build_user_configured_model manifest)
      as [dbt_build_result|e2] eqn:Hbuild; cbn [rbind] in H; [|left; congruence].
    right. exists dbt_build_result. split; [reflexivity|].
    destruct (parse_directory_of_yaml_files_to_model (joinpath directory "metrics"))
      as [mf_build_result|e3] eqn:Hyaml; cbn [rbind] in H; [|left; congruence].
    right. exists mf_build_result. split; [reflexivity|].
    destruct (ModelTransformer_transform _) as [transformed|e4];
      cbn [rbind] in H; [discriminate|congruence].
  - intros [H|(manifest & Hmanifest & [H|(dbt_build_result & Hbuild
            & [H|(mf_build_result & Hyaml & H)])])].
    + rewrite H. cbn [rbind]. congruence.
    + rewrite Hmanifest. cbn [rbind]. rewrite H. cbn [rbind]. congruence.
    + rewrite Hmanifest. cbn [rbind]. rewrite Hbuild. cbn [rbind].
      rewrite H. cbn [rbind]. congruence.
    + rewrite Hmanifest. cbn [rbind]. rewrite Hbuild. cbn [rbind].
      rewrite Hyaml. cbn [rbind]. rewrite H. reflexivity.
Qed.

Lemma fill_cols_app (cols1 cols2 : list (string * DbtColumn)) (ds : PartialDataSource) :
  fill_cols (cols1 ++ cols2) ds =
  match fill_cols cols1 ds with
  | Ok (_, s) => fill_cols cols2 s
  | Raise e => Raise e
  end.
Proof.
  revert ds. induction cols1 as [|[key col] cols1 IH]; intros ds; [reflexivity|].
  cbn [app fill_cols]. unfold bind.
  destruct (__fill_col col ds) as [[u s]|e]; [apply IH|reflexivity].
Qed.

(** X20: a column without an [mf] entry in its [meta] (no key, or the key
    bound to [None]) is skipped silently: the model with the column gives
    the data source and the issues that the model without it gives. *)
Theorem to_data_source_skips_columns_without_mf
    (name description : string) (meta : dict)
    (before after : list (string * DbtColumn)) (key : string) (col : DbtColumn) :
  dict_get (col_meta col) "mf" = None \/ dict_get (col_meta col) "mf" = Some VNone ->
  __to_data_source
    {| node_name := name; node_description := description; node_meta := meta;
       node_columns := before ++ (key, col) :: after |} =
  __to_data_source
    {| node_name := name; node_description := description; node_meta := meta;
       node_columns := before ++ after |}.
Proof.
  intros Hmf. apply meta_get_absent_or_none in Hmf.
  unfold __to_data_source, __fill_dbt_model_meta.
  cbn [node_name node_description node_columns node_meta].
  set (from_meta := if is_none (meta_get meta "mf") then ret tt else _).
  unfold bind.
  destruct (from_meta _) as [[u s]|e]; [|reflexivity].
  rewrite !fill_cols_app.
  destruct (fill_cols before s) as [[u' s']|e]; [|reflexivity].
  cbn [fill_cols]. unfold bind.
  now rewrite (fill_col_skips col s') by (rewrite Hmf; reflexivity).
Qed.

(** X21: when [__fill_col] returns on a column whose [meta.mf] is a mapping,
    it has added no element or exactly one, and that element is named
    [meta.mf.name] or, without that key, after the column, has as expression
    [meta.mf.expr] or, without that key, the name of the column, and is
    described by the description of the column or, when that is empty, by its
    name; a dimension is described by its own name instead. *)
Theorem fill_col_element_defaults
    (col : DbtColumn) (mf : dict) (ds ds' : PartialDataSource) :
  dict_get (col_meta col) "mf" = Some (VDict mf) ->
  __fill_col col ds = Ok (tt, ds') ->
  let name := match dict_get mf "name" with
              | Some v => v
              | None => VStr (col_name col)
              end in
  let expr := match dict_get mf "expr" with
              | Some v => v
              | None => VStr (col_name col)
              end in
  let description := if String.eqb (col_description col) ""
                     then col_name col else col_description col in
  (measures ds' = measures ds /\ identifiers ds' = identifiers ds /\
   dimensions ds' = dimensions ds)
  \/ (exists ty,
        append_identifier {| identifier_name := name;
                             identifier_description := description;
                             identifier_expr := expr;
                             identifier_type := ty |} ds = Ok (tt, ds'))
  \/ (exists ty type_params,
        append_dimension {| dimension_name := name;
                            dimension_description := name;
                            dimension_expr := expr;
                            dimension_type := ty;
                            dimension_type_params := type_params |} ds = Ok (tt, ds'))
  \/ (exists kind,
        append_measure {| measure_name := name;
                          measure_description := VStr description;
                          measure_expr := expr;
                          measure_agg := AggKind kind |} ds = Ok (tt, ds')).
Proof.
  intros Hmf H. cbv zeta.
  assert (Hdescr : str_or (col_description col) (col_name col) =
                   (if String.eqb (col_description col) ""
                    then col_name col else col_description col))
    by now destruct (col_description col).
  rewrite <- Hdescr. clear Hdescr.
  unfold __fill_col, meta_get in H. rewrite Hmf in H. cbn [is_none] in H.
  cbv zeta in H.
  next H mf_type s0 Hty. next H mf_type' s1 Hty'. next H u s2 Hissue.
  assert (Hkeep : measures s2 = measures ds /\ identifiers s2 = identifiers ds /\
                  dimensions s2 = dimensions ds).
  { destruct (is_none mf_type').
    - unfold append_issue in Hissue. now injection Hissue as _ <-.
    - unfold ret in Hissue. now injection Hissue as _ <-. }
  assert (Hstay : forall msg s, append_issue msg s2 = Ok (tt, s) ->
                    measures s = measures ds /\ identifiers s = identifiers ds /\
                    dimensions s = dimensions ds).
  { intros msg s Hs. unfold append_issue in Hs. now injection Hs as <-. }
  rewrite Hty in Hty'. injection Hty' as <-.
  next H name s3 Hname. next H expr s4 Hexpr. next H type_name s5 Htn.
  unfold py_get in Hname, Hexpr. injection Hname as <-. injection Hexpr as <-.
  destruct (is_none mf_type) eqn:Hnone.
  { destruct mf_type; try discriminate Hnone. cbn [py_eq_str] in H.
    left. now apply (Hstay _ _ H). }
  unfold ret in Hissue. injection Hissue as _ <-.
  destruct (py_eq_str mf_type "identifier").
  { destruct (is_none type_name); [left; now apply (Hstay _ _ H)|].
    next H upper s6 Hup. next H ty s7 Hfor. right. left. now exists ty. }
  destruct (py_eq_str mf_type "dimension").
  { destruct (is_none type_name); [left; now apply (Hstay _ _ H)|].
    next H type_params_dict s6 Htpd. next H type_params s7 Htp.
    assert (s7 = ds) as ->.
    { destruct (is_none type_params_dict).
      - unfold ret in Htp. now injection Htp as _ <-.
      - next Htp tp s8 Hparse. unfold ret in Htp. now injection Htp as _ <-. }
    next H upper s8 Hup. next H ty s9 Hfor.
    right. right. left. now exists ty, type_params. }
  destruct (py_eq_str mf_type "measure").
  { next H agg s6 Hagg.
    destruct (is_none agg); [left; now apply (Hstay _ _ H)|].
    next H kind s7 Hkind. right. right. right. now exists kind. }
  left. now apply (Hstay _ _ H).
Qed.

End DbtMore.

(** *** The transformer on more sample inputs *)

Section DbtMoreRuns.
Import Dbt DbtSample DbtAdditions.

Lemma fill_col_adds_one_thing_witness :
  after_amount = empty_partial
  \/ (exists i, append_identifier i empty_partial = Ok (tt, after_amount))
  \/ (exists d, append_dimension d empty_partial = Ok (tt, after_amount))
  \/ (exists m, append_measure m empty_partial = Ok (tt, after_amount))
  \/ (exists msg, append_issue msg empty_partial = Ok (tt, after_amount))
  \/ (exists msg1 msg2 s, append_issue msg1 empty_partial = Ok (tt, s) /\
                          append_issue msg2 s = Ok (tt, after_amount)).
Proof.
  exact (fill_col_adds_one_thing amount_col empty_partial after_amount eq_refl).
Defined.

Lemma fill_col_without_type_witness :
  __fill_col untyped_identifier_col empty_partial =
  Ok (tt, {| sql_table := VStr "db.schema.orders";
             issues := [ValidationError "meta.mf.type not found for col: buyer_id"];
             measures := [];
             identifiers := [];
             dimensions := [] |}).
Proof.
  exact (fill_col_without_type untyped_identifier_col
           [("mf_type", VStr "identifier")] "identifier" empty_partial
           eq_refl eq_refl (or_introl eq_refl) (or_introl eq_refl)).
Defined.

Lemma fill_col_without_agg_witness :
  __fill_col unaggregated_col empty_partial =
  Ok (tt, {| sql_table := VStr "db.schema.orders";
             issues := [ValidationError "meta.mf.agg not found for col: price"];
             measures := [];
             identifiers := [];
             dimensions := [] |}).
Proof.
  exact (fill_col_without_agg unaggregated_col [("mf_type", VStr "measure")]
           empty_partial eq_refl eq_refl (or_introl eq_refl)).
Defined.

Lemma fill_col_with_unknown_mf_type_witness :
  __fill_col misspelt_col empty_partial =
  Ok (tt, {| sql_table := VStr "db.schema.orders";
             issues :=
               [ValidationError "invalid meta.mf.mf_type for col: price, value: mesure"];
             measures := [];
             identifiers := [];
             dimensions := [] |}).
Proof.
  apply (fill_col_with_unknown_mf_type misspelt_col
           [("mf_type", VStr "mesure"); ("agg", VStr "sum")] (VStr "mesure")
           empty_partial eq_refl eq_refl); discriminate.
Defined.

Lemma fill_col_raises_on_scalar_mf_witness :
  __fill_col scalar_mf_col empty_partial = Raise AttributeError.
Proof.
  apply (fill_col_raises_on_scalar_mf scalar_mf_col (VStr "measure") empty_partial eq_refl);
    discriminate.
Defined.

Lemma to_data_source_raises_on_scalar_mf_witness :
  __to_data_source scalar_mf_model = Raise AttributeError.
Proof.
  apply (to_data_source_raises_on_scalar_mf scalar_mf_model (VBool true) eq_refl);
    discriminate.
Defined.

Lemma fill_dbt_model_meta_without_measures_witness :
  __fill_dbt_model_meta customers_model empty_partial =
  Ok (tt, {| sql_table := VStr "shop.customers";
             issues :=
               [ValidationError "model.meta.mf.measures not found in model: customers"];
             measures := [];
             identifiers := [];
             dimensions := [] |}).
Proof.
  exact (fill_dbt_model_meta_without_measures customers_model
           [("sql_table", VStr "shop.customers")] empty_partial
           eq_refl (or_introl eq_refl)).
Defined.

Lemma fill_col_type_is_case_insensitive_witness :
  __fill_col order_id_col empty_partial = __fill_col order_id_upper_col empty_partial.
Proof.
  apply (fill_col_type_is_case_insensitive order_id_col order_id_upper_col
           [("mf_type", VStr "identifier"); ("type", VStr "Primary")]
           [("mf_type", VStr "identifier"); ("type", VStr "PRIMARY")]
           "Primary" "PRIMARY" empty_partial); try reflexivity.
  intros k Hk. cbn [dict_get].
  destruct (String.eqb "mf_type" k); [reflexivity|].
  apply not_eq_sym, String.eqb_neq in Hk. now rewrite Hk.
Defined.

Lemma to_data_source_dimensions_are_described_by_name_witness :
  Forall (fun d => dimension_description d = dimension_name d)
         (ds_dimensions (fst customers_source)).
Proof.
  exact (to_data_source_dimensions_are_described_by_name customers_model
           (fst customers_source) (snd customers_source) eq_refl).
Defined.

Lemma to_data_source_header_witness :
  ds_name (fst customers_source) = "customers" /\
  ds_description (fst customers_source) = "one row per customer" /\
  ds_sql_table (fst customers_source) = VStr "shop.customers".
Proof.
  exact (to_data_source_header customers_model
           (fst customers_source) (snd customers_source) eq_refl).
Defined.

Lemma to_data_source_is_built_column_by_column_witness :
  exists from_model added,
    __fill_dbt_model_meta orders_model
      {| sql_table := VStr "db.schema.orders";
         issues := []; measures := []; identifiers := []; dimensions := [] |}
    = Ok (tt, from_model) /\
    Forall2 (fun kc a => __fill_col (snd kc) nothing = Ok (tt, a))
            [("amount", amount_col); ("status", untyped_col)] added /\
    snd orders_source = (issues from_model ++ concat (map issues added))%list /\
    ds_measures (fst orders_source) =
      (measures from_model ++ concat (map measures added))%list /\
    ds_identifiers (fst orders_source) = concat (map identifiers added) /\
    ds_dimensions (fst orders_source) = concat (map dimensions added).
Proof.
  exact (to_data_source_is_built_column_by_column orders_model
           (fst orders_source) (snd orders_source) eq_refl).
Defined.

Lemma fill_dbt_model_meta_measures_witness :
  issues after_orders_meta = [] /\
  identifiers after_orders_meta = [] /\
  dimensions after_orders_meta = [] /\
  exists built0,
    measures after_orders_meta = ([] ++ built0)%list /\
    Forall2 (fun entry msr =>
               exists d agg,
                 entry = VDict d /\
                 dict_get d "name" = Some (measure_name msr) /\
                 dict_get d "agg" = Some (VStr agg) /\
                 measure_agg msr = AggName (str_upper agg) /\
                 measure_description msr =
                   match dict_get d "description" with
                   | Some x => x
                   | None => measure_name msr
                   end)
            [VDict [("name", VStr "order_count"); ("agg", VStr "count")]] built0.
Proof.
  exact (fill_dbt_model_meta_measures orders_model _ _ _ empty_partial after_orders_meta
           eq_refl eq_refl eq_refl eq_refl).
Defined.

Lemma fill_dbt_model_meta_raises_on_incomplete_entry_witness :
  __fill_dbt_model_meta broken_model empty_partial = Raise (KeyError "name").
Proof.
  apply (fill_dbt_model_meta_raises_on_incomplete_entry broken_model _
           [("agg", VStr "sum")]
           [VDict [("name", VStr "payments"); ("agg", VStr "count")]] []
           "name" empty_partial eq_refl eq_refl).
  - constructor; [|constructor]. eexists. reflexivity.
  - left. split; reflexivity.
Defined.

Lemma build_ignores_nodes_that_are_not_models_witness :
  build_user_configured_model
    {| nodes := [("model.shop.orders", orders_model);
                 ("test.shop.not_null_orders", customers_model)] |} =
  build_user_configured_model
    {| nodes := [("model.shop.orders", orders_model)] |}.
Proof.
  exact (build_ignores_nodes_that_are_not_models "test.shop.not_null_orders"
           customers_model [("model.shop.orders", orders_model)] [] eq_refl).
Defined.

Lemma build_has_one_data_source_per_mf_model_witness :
  map ds_name (data_sources (model shop_build)) = ["orders"; "customers"] /\
  metrics (model shop_build) = [].
Proof.
  exact (build_has_one_data_source_per_mf_model shop_manifest shop_build eq_refl).
Defined.

Lemma build_raises_with_the_first_failing_model_witness :
  build_user_configured_model
    {| nodes := [("model.shop.orders", orders_model);
                 ("model.shop.payments", broken_model);
                 ("model.shop.customers", customers_model)] |} =
  Raise (KeyError "name").
Proof.
  apply (build_raises_with_the_first_failing_model "model.shop.payments" broken_model
           (VDict [("measures",
                    VList [VDict [("name", VStr "payments"); ("agg", VStr "count")];
                           VDict [("agg", VStr "sum")]])])
           [("model.shop.orders", orders_model)]
           [("model.shop.customers", customers_model)]
           orders_build (KeyError "name")); try reflexivity.
  discriminate.
Defined.

Lemma build_of_concatenated_manifests_witness :
  exists r issues1 issues2,
    build_user_configured_model
      {| nodes := [("model.shop.orders", orders_model);
                   ("model.shop.customers", customers_model)] |} = Ok r /\
    data_sources (model r) =
      (data_sources (model orders_build) ++ data_sources (model customers_build))%list /\
    build_issues orders_build = from_issues_sequence issues1 /\
    build_issues customers_build = from_issues_sequence issues2 /\
    build_issues r = from_issues_sequence (issues1 ++ issues2).
Proof.
  exact (build_of_concatenated_manifests
           [("model.shop.orders", orders_model)]
           [("model.shop.customers", customers_model)]
           orders_build customers_build eq_refl eq_refl).
Defined.

Lemma parse_dbt_project_raises_witness :
  parse_dbt_project_to_model (C := collaborators_without_metrics) "shop" None None =
  Raise (OtherError "shop/metrics").
Proof.
  apply (parse_dbt_project_raises (C := collaborators_without_metrics)).
  right. exists orders_manifest. split; [reflexivity|].
  right. exists orders_build. split; [reflexivity|].
  left. reflexivity.
Defined.

Lemma to_data_source_skips_columns_without_mf_witness :
  __to_data_source
    {| node_name := "customers"; node_description := "";
       node_meta := [("mf", VDict [("sql_table", VStr "shop.customers")])];
       node_columns := [("country", country_col);
                        ("note", {| col_name := "note"; col_description := "free text";
                                    col_meta := [("owner", VStr "data")] |})] |} =
  __to_data_source
    {| node_name := "customers"; node_description := "";
       node_meta := [("mf", VDict [("sql_table", VStr "shop.customers")])];
       node_columns := [("country", country_col)] |}.
Proof.
  exact (to_data_source_skips_columns_without_mf "customers" ""
           [("mf", VDict [("sql_table", VStr "shop.customers")])]
           [("country", country_col)] [] "note"
           {| col_name := "note"; col_description := "free text";
              col_meta := [("owner", VStr "data")] |}
           (or_introl eq_refl)).
Defined.

Lemma fill_col_element_defaults_witness :
  (measures after_amount = [] /\ identifiers after_amount = [] /\
   dimensions after_amount = [])
  \/ (exists ty,
        append_identifier {| identifier_name := VStr "revenue";
                             identifier_description := "amount";
                             identifier_expr := VStr "amount";
                             identifier_type := ty |} empty_partial
        = Ok (tt, after_amount))
  \/ (exists ty type_params,
        append_dimension {| dimension_name := VStr "revenue";
                            dimension_description := VStr "revenue";
                            dimension_expr := VStr "amount";
                            dimension_type := ty;
                            dimension_type_params := type_params |} empty_partial
        = Ok (tt, after_amount))
  \/ (exists kind,
        append_measure {| measure_name := VStr "revenue";
                          measure_description := VStr "amount";
                          measure_expr := VStr "amount";
                          measure_agg := AggKind kind |} empty_partial
        = Ok (tt, after_amount)).
Proof.
  exact (fill_col_element_defaults amount_col
           [("mf_type", VStr "measure"); ("name", VStr "revenue"); ("agg", VStr "sum")]
           empty_partial after_amount eq_refl eq_refl).
Defined.

End DbtMoreRuns.
